(** * sensor_logger.py: sampling loop, recorder and lifecycle

    A shallow embedding of [src/sensor_logger.py].  The script talks to
    four collaborators that live outside the repository: the process
    environment ([os.getenv]), the SQLite Cloud connection, the 1-wire
    temperature sensor and the GPIO header.  Their answers are supplied by
    an environment [Env]; everything the script itself does (the order of
    the calls, which exceptions it catches, what it prints) is written
    out below, statement by statement.

    Exceptions are explicit: a computation either returns, raises, or is
    still inside [while True] when the iteration budget is used up.

    What is assumed of the collaborators:
    - every call may be cut short by SIGINT, which Python raises as
      [KeyboardInterrupt]; a signal is taken to arrive during a call, not
      between two of them;
    - every call may fail with an [Exception], except reading the clock
      and sleeping; [print] always succeeds;
    - the store follows SQL: [CREATE TABLE IF NOT EXISTS] adds an empty
      table when the name is free and does nothing otherwise, [INSERT]
      appends one row to an existing table with that column and is
      rejected otherwise; the connection is in autocommit mode, so a
      statement takes effect when [execute] passes and [commit] changes
      nothing in the tables;
    - the [import] statements are not modelled. *)

From Stdlib Require Import List String ZArith QArith Bool Arith Lia.
Import ListNotations.

Local Open Scope string_scope.
Local Open Scope list_scope.
Local Open Scope Z_scope.

(** ** Python values the script handles *)

(** The exceptions that can travel through the script.  [LibError] stands
    for any instance of [Exception] raised by a collaborator; [ValueError]
    is the one the script raises itself.  [KeyboardInterrupt] and
    [SystemExit] derive from [BaseException] only, so [except Exception]
    does not catch them. *)
Inductive exn : Type :=
| ValueError (msg : string)
| LibError (msg : string)
| KeyboardInterrupt
| SystemExit (code : option Z).

Definition is_Exception (x : exn) : bool :=
  match x with
  | ValueError _ | LibError _ => true
  | KeyboardInterrupt | SystemExit _ => false
  end.

(** [str(e)], as used by the f-strings of the handlers. *)
Definition str (x : exn) : string :=
  match x with
  | ValueError m | LibError m => m
  | KeyboardInterrupt => ""
  | SystemExit None => "None"
  | SystemExit (Some _) => "SystemExit"
  end.

(** ** The remote store *)

(** A cell of the third column: [motion_detected INTEGER] or
    [temperature REAL].  The script never computes with a temperature, it
    only passes it on; a rational stands for the float. *)
Inductive value : Type :=
| VInt (z : Z)
| VReal (q : Q).

Record row : Type := mkRow {
  row_id : Z;
  row_timestamp : string;
  row_value : value
}.

(** A table [name(id, timestamp, <column>)]. *)
Record table : Type := mkTable {
  tbl_column : string;
  tbl_rows : list row
}.

(** Tables in creation order. *)
Definition store : Type := list (string * table).

(** The SQL statements of the script. *)
Inductive stmt : Type :=
| CreateTableIfNotExists (name column : string)
| InsertInto (name column : string) (timestamp : string) (v : value).

Fixpoint lookup (name : string) (s : store) : option table :=
  match s with
  | [] => None
  | (n, t) :: rest => if String.eqb n name then Some t else lookup name rest
  end.

Fixpoint update (name : string) (f : table -> table) (s : store) : store :=
  match s with
  | [] => []
  | (n, t) :: rest =>
      if String.eqb n name then (n, f t) :: rest
      else (n, t) :: update name f rest
  end.

(** [INTEGER PRIMARY KEY AUTOINCREMENT]: one more than the largest id. *)
Definition next_id (rows : list row) : Z :=
  1 + fold_right (fun r m => Z.max (row_id r) m) 0 rows.

Definition append_row (timestamp : string) (v : value) (t : table) : table :=
  mkTable (tbl_column t) (tbl_rows t ++ [mkRow (next_id (tbl_rows t)) timestamp v]).

(** What the store does with a statement it receives: [inl] is the
    message of the error it answers with, [inr] the store afterwards.
    The connection is in autocommit mode, so an accepted statement takes
    effect at once. *)
Definition run_stmt (q : stmt) (s : store) : string + store :=
  match q with
  | CreateTableIfNotExists name column =>
      match lookup name s with
      | Some _ => inr s
      | None => inr (s ++ [(name, mkTable column [])])
      end
  | InsertInto name column timestamp v =>
      match lookup name s with
      | None => inl (String.append "no such table: " name)
      | Some t =>
          if String.eqb (tbl_column t) column
          then inr (update name (append_row timestamp v) s)
          else inl (String.concat "" ["table "; name; " has no column named "; column])
      end
  end.

(** The store after a statement: unchanged when it was rejected. *)
Definition apply_stmt (q : stmt) (s : store) : store :=
  match run_stmt q s with
  | inl _ => s
  | inr s' => s'
  end.

(** ** Calls to the collaborators *)

Inductive call : Type :=
| CConnect (url : string)          (* sqlitecloud.connect(url) *)
| CExecute (q : stmt)              (* conn.execute(q, params) *)
| CCommit                          (* conn.commit() *)
| CClose                           (* conn.close() *)
| CSensorInit                      (* W1ThermSensor() *)
| CGetTemperature                  (* sensor.get_temperature() *)
| CGpioSetmode                     (* GPIO.setmode(GPIO.BCM) *)
| CGpioSetup (pin : Z)             (* GPIO.setup(pin, GPIO.IN) *)
| CGpioInput (pin : Z)             (* GPIO.input(pin) *)
| CGpioCleanup                     (* GPIO.cleanup() *)
| CNow                             (* datetime.now().isoformat() *)
| CSleep (seconds : Z).            (* time.sleep(seconds) *)

(** Reading the clock and sleeping raise no [Exception]; every other
    call may. *)
Definition can_fail (c : call) : bool :=
  match c with
  | CNow | CSleep _ => false
  | _ => true
  end.

Inductive outcome : Type :=
| Passed
| Failed (msg : string)
| Interrupted.

Record event : Type := mkEvent {
  ev_call : call;
  ev_outcome : outcome
}.

(** One constructor per [print] of the script; the f-string arguments
    are kept as data (a float is not rendered to two decimals). *)
Inductive line : Type :=
| L_connected
| L_failed_connect (e : string)
| L_tables_ready
| L_failed_create (e : string)
| L_motion_inserted (timestamp : string) (motion_detected : Z)
| L_motion_error (e : string)
| L_temperature_inserted (timestamp : string) (temperature : Q)
| L_temperature_error (e : string)
| L_system_test
| L_ready
| L_temperature (temperature : Q)
| L_motion_detected
| L_no_motion
| L_error (e : string)
| L_quit
| L_cleaned_up.

(** The state around the script.  [trace] and [stdout] grow at the head:
    the most recent call, or line, comes first. *)
Record World : Type := mkWorld {
  trace : list event;
  stdout : list line;
  db : store;
  conn_live : bool
}.

Definition log (e : event) (w : World) : World :=
  mkWorld (e :: trace w) (stdout w) (db w) (conn_live w).

Definition emit (l : line) (w : World) : World :=
  mkWorld (trace w) (l :: stdout w) (db w) (conn_live w).

(** A fresh process on a store [s]: nothing called, nothing printed, no
    connection. *)
Definition boot (s : store) : World := mkWorld [] [] s false.

(** What the collaborators do at the [k]-th call of a run ([k] counts
    from 0): whether SIGINT arrives during it, whether it fails and with
    which message, and what the sensors and the clock read. *)
Record Env : Type := mkEnv {
  env_signal : nat -> bool;
  env_error : nat -> option string;
  env_temperature : nat -> Q;
  env_pin : nat -> Z;
  env_now : nat -> string
}.

(** ** Computations *)

Inductive result (A : Type) : Type :=
| Ret (a : A)
| Raise (x : exn)
| Running.

Arguments Ret {A} a.
Arguments Raise {A} x.
Arguments Running {A}.

Definition M (A : Type) : Type := World -> result A * World.

Definition ret {A} (a : A) : M A := fun w => (Ret a, w).

Definition raise {A} (x : exn) : M A := fun w => (Raise x, w).

Definition bind {A B} (m : M A) (f : A -> M B) : M B :=
  fun w =>
    match m w with
    | (Ret a, w') => f a w'
    | (Raise x, w') => (Raise x, w')
    | (Running, w') => (Running, w')
    end.

Declare Scope py_scope.
Delimit Scope py_scope with py.
Notation "x <- m ;; k" := (bind m (fun x => k))
  (at level 61, m at next level, right associativity) : py_scope.
Notation "m ;; k" := (bind m (fun _ => k))
  (at level 61, right associativity) : py_scope.
Local Open Scope py_scope.

(** [try: body / except Exception as e: handler e] *)
Definition try_except {A} (body : M A) (handler : exn -> M A) : M A :=
  fun w =>
    match body w with
    | (Raise x, w') => if is_Exception x then handler x w' else (Raise x, w')
    | other => other
    end.

(** [try: body / except KeyboardInterrupt: handler] *)
Definition try_except_KeyboardInterrupt {A} (body : M A) (handler : M A) : M A :=
  fun w =>
    match body w with
    | (Raise KeyboardInterrupt, w') => handler w'
    | other => other
    end.

(** [try: body / finally: final].  The final block runs when the body is
    left, by a return or by an exception, and the body's exception is
    raised again after it unless the final block raises one itself. *)
Definition try_finally {A} (body : M A) (final : M unit) : M A :=
  fun w =>
    match body w with
    | (Running, w') => (Running, w')
    | (r, w') =>
        match final w' with
        | (Ret _, w'') => (r, w'')
        | (Raise x, w'') => (Raise x, w'')
        | (Running, w'') => (Running, w'')
        end
    end.

(** [while True: body], cut after [n] iterations. *)
Fixpoint while_true (n : nat) (body : M unit) : M unit :=
  match n with
  | O => fun w => (Running, w)
  | S n' => body ;; while_true n' body
  end.

Definition print (l : line) : M unit := fun w => (Ret tt, emit l w).

(** ** The process environment *)

Definition environ : Type := list (string * string).

(** [os.getenv(name)]: [None] when the variable is not set. *)
Fixpoint getenv (name : string) (vars : environ) : option string :=
  match vars with
  | [] => None
  | (n, v) :: rest => if String.eqb n name then Some v else getenv name rest
  end.

(** Truth value of [None] or a [str]: only a non-empty string is true. *)
Definition truthy (o : option string) : bool :=
  match o with
  | None => false
  | Some s => negb (String.eqb s "")
  end.

(** An f-string renders [None] as the word. *)
Definition fmt (o : option string) : string :=
  match o with
  | None => "None"
  | Some s => s
  end.

(** ** The script *)

Section Script.

Variable E : Env.

(** How the [k]-th call is answered in world [w]: SIGINT first, then a
    failure of the collaborator, then the store's own verdict on a
    statement. *)
Definition respond (k : nat) (c : call) (w : World) : outcome :=
  if env_signal E k then Interrupted
  else if can_fail c then
    match env_error E k with
    | Some m => Failed m
    | None =>
        match c with
        | CExecute q =>
            match run_stmt q (db w) with
            | inl m => Failed m
            | inr _ => Passed
            end
        | _ => Passed
        end
    end
  else Passed.

(** What a call that passed leaves behind. *)
Definition db_after (c : call) (s : store) : store :=
  match c with
  | CExecute q => apply_stmt q s
  | _ => s
  end.

Definition live_after (c : call) (b : bool) : bool :=
  match c with
  | CConnect _ => true
  | CClose => false
  | _ => b
  end.

Definition effect (c : call) (w : World) : World :=
  mkWorld (trace w) (stdout w) (db_after c (db w)) (live_after c (conn_live w)).

(** One call to a collaborator.  It returns its position in the run, at
    which the environment is read for a value. *)
Definition invoke (c : call) : M nat :=
  fun w =>
    let k := List.length (trace w) in
    match respond k c w with
    | Passed => (Ret k, log (mkEvent c Passed) (effect c w))
    | Failed m => (Raise (LibError m), log (mkEvent c (Failed m)) w)
    | Interrupted => (Raise KeyboardInterrupt, log (mkEvent c Interrupted) w)
    end.

Definition sqlitecloud_connect (url : string) : M unit := invoke (CConnect url) ;; ret tt.
Definition conn_execute (q : stmt) : M unit := invoke (CExecute q) ;; ret tt.
Definition conn_commit : M unit := invoke CCommit ;; ret tt.
Definition conn_close : M unit := invoke CClose ;; ret tt.
Definition W1ThermSensor : M unit := invoke CSensorInit ;; ret tt.
Definition sensor_get_temperature : M Q := k <- invoke CGetTemperature ;; ret (env_temperature E k).
Definition GPIO_setmode : M unit := invoke CGpioSetmode ;; ret tt.
Definition GPIO_setup (pin : Z) : M unit := invoke (CGpioSetup pin) ;; ret tt.
Definition GPIO_input (pin : Z) : M Z := k <- invoke (CGpioInput pin) ;; ret (env_pin E k).
Definition GPIO_cleanup : M unit := invoke CGpioCleanup ;; ret tt.
Definition datetime_now_isoformat : M string := k <- invoke CNow ;; ret (env_now E k).
Definition time_sleep (seconds : Z) : M unit := invoke (CSleep seconds) ;; ret tt.

(** [exit()]: raises [SystemExit(None)]. *)
Definition exit_ {A} : M A := raise (SystemExit None).

Definition create_motion_table_query : stmt :=
  CreateTableIfNotExists "motion" "motion_detected".

Definition create_temperature_table_query : stmt :=
  CreateTableIfNotExists "temperature" "temperature".

Definition create_tables_if_not_exists : M unit :=
  try_except
    (conn_execute create_motion_table_query ;;
     conn_execute create_temperature_table_query ;;
     conn_commit ;;
     print L_tables_ready)
    (fun e => print (L_failed_create (str e))).

Definition insert_motion (motion_detected : Z) (timestamp : string) : M unit :=
  try_except
    (conn_execute (InsertInto "motion" "motion_detected" timestamp (VInt motion_detected)) ;;
     conn_commit ;;
     print (L_motion_inserted timestamp motion_detected))
    (fun e => print (L_motion_error (str e))).

Definition insert_temperature (temperature : Q) (timestamp : string) : M unit :=
  try_except
    (conn_execute (InsertInto "temperature" "temperature" timestamp (VReal temperature)) ;;
     conn_commit ;;
     print (L_temperature_inserted timestamp temperature))
    (fun e => print (L_temperature_error (str e))).

Definition PIR_PIN : Z := 23.

(** The inner [try] of the loop, lines 147 to 169. *)
Definition sample_and_store : M unit :=
  try_except
    (temperature_celsius <- sensor_get_temperature ;;
     print (L_temperature temperature_celsius) ;;
     motion_state <- GPIO_input PIR_PIN ;;
     timestamp <- datetime_now_isoformat ;;
     insert_temperature temperature_celsius timestamp ;;
     insert_motion motion_state timestamp ;;
     if Z.eqb motion_state 0 then print L_no_motion else print L_motion_detected)
    (fun e => print (L_error (str e))).

(** One iteration of [while True]. *)
Definition loop_body : M unit :=
  sample_and_store ;;
  time_sleep 1.

(** The body of the outer [try], lines 141 to 171. *)
Definition main_try (fuel : nat) : M unit :=
  print L_system_test ;;
  time_sleep 2 ;;
  print L_ready ;;
  while_true fuel loop_body.

(** The [finally] block, lines 176 to 178. *)
Definition main_finally : M unit :=
  GPIO_cleanup ;;
  conn_close ;;
  print L_cleaned_up.

(** Lines 140 to 178. *)
Definition main_block (fuel : nat) : M unit :=
  try_finally
    (try_except_KeyboardInterrupt (main_try fuel) (print L_quit))
    main_finally.

(** The whole module, top to bottom. *)
Definition script (vars : environ) (fuel : nat) : M unit :=
  let API_KEY := getenv "API_KEY" vars in
  let DATABASE_URL := getenv "DATABASE_URL" vars in
  let DB_NAME := getenv "DB_NAME" vars in
  if negb (truthy API_KEY) || negb (truthy DATABASE_URL) || negb (truthy DB_NAME)
  then raise (ValueError "Missing environment variables for API_KEY, DATABASE_URL, or DB_NAME")
  else
    try_except
      (sqlitecloud_connect
         (String.concat "" [fmt DATABASE_URL; "/"; fmt DB_NAME; "?apikey="; fmt API_KEY]) ;;
       print L_connected)
      (fun e => print (L_failed_connect (str e)) ;; exit_) ;;
    W1ThermSensor ;;
    GPIO_setmode ;;
    GPIO_setup PIR_PIN ;;
    create_tables_if_not_exists ;;
    main_block fuel.

End Script.

(** The status the interpreter exits with. *)
Definition exit_status (r : result unit) : option Z :=
  match r with
  | Running => None
  | Ret _ => Some 0
  | Raise (SystemExit None) => Some 0
  | Raise (SystemExit (Some c)) => Some c
  | Raise KeyboardInterrupt => Some 130
  | Raise (ValueError _) | Raise (LibError _) => Some 1
  end.

(** ** Sample runs *)

Definition calm : Env :=
  mkEnv (fun _ => false) (fun _ => None) (fun _ => 43 # 2) (fun _ => 1)
        (fun _ => "2024-01-01T00:00:00").

Definition good_vars : environ :=
  [("API_KEY", "k"); ("DATABASE_URL", "sqlitecloud://host:8860"); ("DB_NAME", "pi.db")].


(** SIGINT during the tenth call, which falls into the first tick. *)
Definition ctrl_c : Env :=
  mkEnv (fun k => Nat.eqb k 9) (fun _ => None) (fun _ => 43 # 2) (fun _ => 1)
        (fun _ => "2024-01-01T00:00:00").

(** The connection cannot be opened. *)
Definition unreachable : Env :=
  mkEnv (fun _ => false)
        (fun k => if Nat.eqb k 0 then Some "connection refused" else None)
        (fun _ => 43 # 2) (fun _ => 1) (fun _ => "2024-01-01T00:00:00").

(** The store rejects the first [CREATE TABLE]. *)
Definition read_only : Env :=
  mkEnv (fun _ => false)
        (fun k => if Nat.eqb k 4 then Some "not authorized" else None)
        (fun _ => 43 # 2) (fun _ => 1) (fun _ => "2024-01-01T00:00:00").

(** The connection is lost when the temperature row of the first tick is
    sent. *)
Definition dropped : Env :=
  mkEnv (fun _ => false)
        (fun k => if Nat.eqb k 3 then Some "connection lost" else None)
        (fun _ => 43 # 2) (fun _ => 1) (fun _ => "2024-01-01T00:00:00").

(** The temperature probe does not answer. *)
Definition no_probe : Env :=
  mkEnv (fun _ => false)
        (fun k => if Nat.eqb k 0 then Some "sensor not ready" else None)
        (fun _ => 43 # 2) (fun _ => 1) (fun _ => "2024-01-01T00:00:00").

(** A store that already holds both tables and one row in each. *)
Definition seeded : store :=
  [("motion", mkTable "motion_detected" [mkRow 1 "2023-12-31T23:59:59" (VInt 0)]);
   ("temperature", mkTable "temperature" [mkRow 1 "2023-12-31T23:59:59" (VReal (20 # 1))])].

(** ** Vocabulary of the statements *)

(** What was added at the head of a log that grew from [old] to [new]. *)
Definition new_part {A} (old new : list A) : list A :=
  firstn (List.length new - List.length old) new.

(** The calls made, and the lines printed, between two worlds. *)
Definition events_between (w w' : World) : list event :=
  new_part (trace w) (trace w').

Definition lines_between (w w' : World) : list line :=
  new_part (stdout w) (stdout w').

Definition passed (e : event) : bool :=
  match ev_outcome e with
  | Passed => true
  | _ => false
  end.



Definition is_sensor_read (e : event) : bool :=
  match ev_call e with
  | CGetTemperature | CGpioInput _ => true
  | _ => false
  end.

Definition count {A} (p : A -> bool) (l : list A) : nat :=
  List.length (filter p l).

Definition rows_of (name : string) (s : store) : list row :=
  match lookup name s with
  | Some t => tbl_rows t
  | None => []
  end.

Definition table_names (s : store) : list string := map fst s.

(** No signal and no failure of a collaborator during the [n] calls
    from the [k]-th on. *)
Definition calm_window (E : Env) (k n : nat) : Prop :=
  forall i, (i < n)%nat -> env_signal E (i + k) = false /\ env_error E (i + k) = None.

Definition unset_or_empty (name : string) (vars : environ) : Prop :=
  getenv name vars = None \/ getenv name vars = Some "".

Definition create_table (name column : string) (s : store) : store :=
  apply_stmt (CreateTableIfNotExists name column) s.

(** [s'] has every table of [s] with the rows and the column it had in
    [s], and no table twice if [s] had none twice. *)
Definition extends (s s' : store) : Prop :=
  (NoDup (table_names s) -> NoDup (table_names s')) /\
  (forall name t, lookup name s = Some t -> lookup name s' = Some t).

Definition valid_vars (vars : environ) : Prop :=
  truthy (getenv "API_KEY" vars) = true /\
  truthy (getenv "DATABASE_URL" vars) = true /\
  truthy (getenv "DB_NAME" vars) = true.

(** The connection string the script builds. *)
Definition connection_url (vars : environ) : string :=
  String.concat ""
    [fmt (getenv "DATABASE_URL" vars); "/"; fmt (getenv "DB_NAME" vars);
     "?apikey="; fmt (getenv "API_KEY" vars)].

(** The world in which the tables are about to be created, after an
    undisturbed start from [boot s]. *)
Definition started (vars : environ) (s : store) : World :=
  mkWorld
    [mkEvent (CGpioSetup 23) Passed; mkEvent CGpioSetmode Passed;
     mkEvent CSensorInit Passed; mkEvent (CConnect (connection_url vars)) Passed]
    [L_connected] s true.

(** No signal during the calls [a], ..., [b - 1]. *)
Definition quiet (E : Env) (a b : nat) : Prop :=
  forall i, (a <= i < b)%nat -> env_signal E i = false.

(** The ways a piece of the script can be left, with what the event log
    then says.  A return, or an exception of a collaborator (only when
    [strict] is off), comes after calls that no signal disturbed;
    [KeyboardInterrupt] comes out of a call that a signal did disturb, the
    first of its kind.  Nothing raises [ValueError] or [SystemExit] past
    startup, and nothing is left unfinished. *)
Definition orderly (E : Env) (strict : bool) {A} (w : World) (r : result A) (w' : World) : Prop :=
  match r with
  | Ret _ =>
      exists evs, trace w' = evs ++ trace w /\
                  quiet E (List.length (trace w)) (List.length (trace w'))
  | Raise (LibError _) =>
      strict = false /\
      exists evs, trace w' = evs ++ trace w /\
                  quiet E (List.length (trace w)) (List.length (trace w'))
  | Raise KeyboardInterrupt =>
      exists c evs, trace w' = mkEvent c Interrupted :: evs ++ trace w /\
                    env_signal E (List.length (evs ++ trace w)) = true /\
                    quiet E (List.length (trace w)) (List.length (evs ++ trace w))
  | _ => False
  end.

Definition tame (E : Env) (strict : bool) {A} (m : M A) : Prop :=
  forall w, orderly E strict w (fst (m w)) (snd (m w)).

(** ** Further sample runs and vocabulary *)

(** No temperature sensor is found on the bus. *)
Definition no_sensor : Env :=
  mkEnv (fun _ => false)
        (fun k => if Nat.eqb k 1 then Some "no sensor found" else None)
        (fun _ => 43 # 2) (fun _ => 1) (fun _ => "2024-01-01T00:00:00").

(** SIGINT while the GPIO mode is being set, before the outer [try]. *)
Definition early_ctrl_c : Env :=
  mkEnv (fun k => Nat.eqb k 2) (fun _ => None) (fun _ => 43 # 2) (fun _ => 1)
        (fun _ => "2024-01-01T00:00:00").

(** SIGINT during the tenth call, and [GPIO.cleanup()] fails after it. *)
Definition stuck_cleanup : Env :=
  mkEnv (fun k => Nat.eqb k 9)
        (fun k => if Nat.eqb k 10 then Some "cleanup failed" else None)
        (fun _ => 43 # 2) (fun _ => 1) (fun _ => "2024-01-01T00:00:00").

(** The connection is lost when the motion row of the first tick is
    sent. *)
Definition motion_lost : Env :=
  mkEnv (fun _ => false)
        (fun k => if Nat.eqb k 5 then Some "connection lost" else None)
        (fun _ => 43 # 2) (fun _ => 0) (fun _ => "2024-01-01T00:00:00").


(** Calls that acquire or release a resource. *)
Definition is_lifecycle_call (e : event) : bool :=
  match ev_call e with
  | CConnect _ | CClose | CSensorInit | CGpioSetmode | CGpioSetup _ | CGpioCleanup => true
  | _ => false
  end.

Definition is_release (e : event) : bool :=
  match ev_call e with
  | CClose | CGpioCleanup => true
  | _ => false
  end.

(** From [s] to [s'] rows were only added, at the end of their tables,
    and only to [temperature] and [motion]; no table was created or
    dropped. *)
Definition only_appends (s s' : store) : Prop :=
  table_names s' = table_names s /\
  (forall name, exists extra, rows_of name s' = rows_of name s ++ extra) /\
  (forall other, other <> "temperature" -> other <> "motion" ->
                 lookup other s' = lookup other s).

(** ** The store *)

Lemma lookup_app (name : string) (s1 s2 : store) :
  lookup name (s1 ++ s2) =
  match lookup name s1 with
  | Some t => Some t
  | None => lookup name s2
  end.
Proof.
  induction s1 as [|[n t] rest IH]; simpl; [reflexivity|].
  destruct (String.eqb n name); [reflexivity | exact IH].
Qed.

Lemma lookup_update (name other : string) (f : table -> table) (s : store) :
  lookup other (update name f s) =
  if String.eqb name other then option_map f (lookup other s) else lookup other s.
Proof.
  induction s as [|[n t] rest IH]; simpl.
  - destruct (String.eqb name other); reflexivity.
  - destruct (String.eqb n name) eqn:Hn; simpl.
    + apply String.eqb_eq in Hn; subst n.
      destruct (String.eqb name other); reflexivity.
    + destruct (String.eqb n other) eqn:Ho; simpl.
      * apply String.eqb_eq in Ho; subst n. rewrite String.eqb_sym, Hn. reflexivity.
      * exact IH.
Qed.

Lemma table_names_update (name : string) (f : table -> table) (s : store) :
  table_names (update name f s) = table_names s.
Proof.
  unfold table_names.
  induction s as [|[n t] rest IH]; simpl; [reflexivity|].
  destruct (String.eqb n name); simpl; [reflexivity | now rewrite IH].
Qed.

Lemma lookup_None_names (name : string) (s : store) :
  lookup name s = None -> ~ In name (table_names s).
Proof.
  unfold table_names.
  induction s as [|[n t] rest IH]; simpl; intros H; [tauto|].
  destruct (String.eqb n name) eqn:Hn; [discriminate|].
  apply String.eqb_neq in Hn. intros [Heq | Hin]; [contradiction | now apply IH].
Qed.

(** [CREATE TABLE IF NOT EXISTS] is always accepted. *)
Lemma run_create (name column : string) (s : store) :
  run_stmt (CreateTableIfNotExists name column) s =
  inr (match lookup name s with
       | Some _ => s
       | None => s ++ [(name, mkTable column [])]
       end).
Proof. simpl. destruct (lookup name s); reflexivity. Qed.

Lemma create_table_eq (name column : string) (s : store) :
  create_table name column s =
  match lookup name s with
  | Some _ => s
  | None => s ++ [(name, mkTable column [])]
  end.
Proof. unfold create_table, apply_stmt. rewrite run_create. reflexivity. Qed.

Lemma create_table_keeps (name column other : string) (t : table) (s : store) :
  lookup other s = Some t -> lookup other (create_table name column s) = Some t.
Proof.
  intros H. rewrite create_table_eq.
  destruct (lookup name s); [exact H|].
  rewrite lookup_app, H. reflexivity.
Qed.

Lemma create_table_present (name column : string) (s : store) :
  lookup name (create_table name column s) <> None.
Proof.
  rewrite create_table_eq.
  destruct (lookup name s) eqn:H; [congruence|].
  rewrite lookup_app, H. simpl. rewrite String.eqb_refl. discriminate.
Qed.

Lemma create_table_twice (name column : string) (s : store) :
  create_table name column (create_table name column s) = create_table name column s.
Proof.
  rewrite (create_table_eq name column (create_table name column s)).
  destruct (lookup name (create_table name column s)) eqn:H; [reflexivity|].
  now apply create_table_present in H.
Qed.

Lemma create_table_NoDup (name column : string) (s : store) :
  NoDup (table_names s) -> NoDup (table_names (create_table name column s)).
Proof.
  intros H. rewrite create_table_eq.
  destruct (lookup name s) eqn:Hl; [exact H|].
  unfold table_names. rewrite map_app. simpl.
  apply NoDup_app; [exact H | constructor; [simpl; tauto | constructor] |].
  intros x Hx [Heq | []]. subst x. exact (lookup_None_names _ _ Hl Hx).
Qed.

(** An accepted [INSERT] appends one row to its table and leaves every
    other table as it was. *)
Lemma run_insert (name column ts : string) (v : value) (s s' : store) :
  run_stmt (InsertInto name column ts v) s = inr s' ->
  rows_of name s' = rows_of name s ++ [mkRow (next_id (rows_of name s)) ts v] /\
  (forall other, other <> name -> lookup other s' = lookup other s) /\
  table_names s' = table_names s.
Proof.
  unfold run_stmt, rows_of. intros H.
  destruct (lookup name s) as [t|] eqn:Hl; [|discriminate].
  destruct (String.eqb (tbl_column t) column); [|discriminate].
  injection H as <-. repeat split.
  - rewrite lookup_update, String.eqb_refl, Hl. reflexivity.
  - intros other Hne. rewrite lookup_update.
    destruct (String.eqb name other) eqn:Heq; [|reflexivity].
    apply String.eqb_eq in Heq. congruence.
  - apply table_names_update.
Qed.

(** ** Calls *)

Lemma respond_calm (E : Env) (k : nat) (c : call) (w : World) :
  env_signal E k = false -> env_error E k = None ->
  respond E k c w =
  match c with
  | CExecute q =>
      match run_stmt q (db w) with
      | inl m => Failed m
      | inr _ => Passed
      end
  | _ => Passed
  end.
Proof.
  intros Hs He. unfold respond. rewrite Hs, He.
  destruct c; reflexivity.
Qed.

Lemma respond_failing (E : Env) (k : nat) (c : call) (w : World) (m : string) :
  env_signal E k = false -> env_error E k = Some m -> can_fail c = true ->
  respond E k c w = Failed m.
Proof.
  intros Hs He Hc. unfold respond. rewrite Hs, He, Hc. reflexivity.
Qed.

Lemma respond_Interrupted (E : Env) (k : nat) (c : call) (w : World) :
  respond E k c w = Interrupted <-> env_signal E k = true.
Proof.
  unfold respond. destruct (env_signal E k); [tauto|].
  split; [|discriminate].
  destruct (can_fail c); [|discriminate].
  destruct (env_error E k); [discriminate|].
  destruct c; try discriminate.
  destruct (run_stmt q (db w)); discriminate.
Qed.

Lemma respond_execute_Passed (E : Env) (k : nat) (q : stmt) (w : World) :
  respond E k (CExecute q) w = Passed ->
  run_stmt q (db w) = inr (apply_stmt q (db w)).
Proof.
  unfold respond, apply_stmt.
  destruct (env_signal E k); [discriminate|]. simpl.
  destruct (env_error E k); [discriminate|].
  destruct (run_stmt q (db w)); [discriminate | reflexivity].
Qed.

Lemma new_part_app {A} (added old : list A) :
  new_part old (added ++ old) = added.
Proof.
  unfold new_part. rewrite length_app, Nat.add_sub.
  rewrite firstn_app, Nat.sub_diag, firstn_all. simpl. apply app_nil_r.
Qed.

Lemma new_part_same {A} (old : list A) : new_part old old = [].
Proof. exact (new_part_app [] old). Qed.

(** ** Startup *)

Lemma truthy_false (name : string) (vars : environ) :
  unset_or_empty name vars <-> truthy (getenv name vars) = false.
Proof.
  unfold unset_or_empty, truthy. split.
  - intros [-> | ->]; reflexivity.
  - destruct (getenv name vars) as [v|]; [|now left].
    intros H. right. f_equal. apply String.eqb_eq.
    now destruct (String.eqb v "").
Qed.

Lemma script_without_configuration (E : Env) (vars : environ) (fuel : nat) (w : World) :
  unset_or_empty "API_KEY" vars \/ unset_or_empty "DATABASE_URL" vars \/
  unset_or_empty "DB_NAME" vars ->
  script E vars fuel w =
    (Raise (ValueError "Missing environment variables for API_KEY, DATABASE_URL, or DB_NAME"), w).
Proof.
  intros H. unfold script.
  destruct H as [H | [H | H]]; apply truthy_false in H; rewrite H; simpl;
    rewrite ?orb_true_r; reflexivity.
Qed.

(** C6.  When [API_KEY], [DATABASE_URL] or [DB_NAME] is not set or is
    the empty string, the script raises [ValueError] at once: the world is
    untouched (no call to any collaborator has been made, so no
    connection is open and no sensor or GPIO handle is held) and the
    interpreter exits with status 1. *)
Theorem missing_configuration_is_fatal (E : Env) (vars : environ) (fuel : nat) (w : World) :
  unset_or_empty "API_KEY" vars \/ unset_or_empty "DATABASE_URL" vars \/
  unset_or_empty "DB_NAME" vars ->
  script E vars fuel w =
    (Raise (ValueError "Missing environment variables for API_KEY, DATABASE_URL, or DB_NAME"), w)
  /\ exit_status (fst (script E vars fuel w)) = Some 1
  /\ events_between w (snd (script E vars fuel w)) = []
  /\ conn_live (snd (script E vars fuel w)) = conn_live w.
Proof.
  intros H. rewrite (script_without_configuration E vars fuel w H). simpl.
  repeat split. apply new_part_same.
Qed.

Lemma missing_configuration_is_fatal_witness :
  exit_status (fst (script calm [("API_KEY", "k"); ("DATABASE_URL", "")] 3 (boot []))) = Some 1.
Proof.
  apply (missing_configuration_is_fatal calm [("API_KEY", "k"); ("DATABASE_URL", "")] 3 (boot [])).
  right; left. right. reflexivity.
Defined.

(** ** Signals and the event log *)

Lemma quiet_empty (E : Env) (a : nat) : quiet E a a.
Proof. intros i Hi. lia. Qed.

Lemma quiet_join (E : Env) (a b c : nat) :
  quiet E a b -> quiet E b c -> quiet E a c.
Proof.
  intros H1 H2 i Hi.
  destruct (Nat.lt_ge_cases i b); [apply H1 | apply H2]; lia.
Qed.

Lemma quiet_step (E : Env) (a : nat) :
  env_signal E a = false -> quiet E a (S a).
Proof. intros H i Hi. assert (i = a) by lia. now subst. Qed.

Lemma tame_weaken (E : Env) {A} (m : M A) : tame E true m -> tame E false m.
Proof.
  intros H w. specialize (H w).
  destruct (fst (m w)) as [a|[]|]; simpl in *; try exact H.
  destruct H as [H _]. discriminate.
Qed.

Lemma tame_ret (E : Env) (strict : bool) {A} (a : A) : tame E strict (ret a).
Proof. intros w. simpl. exists []. split; [reflexivity | apply quiet_empty]. Qed.

Lemma tame_print (E : Env) (strict : bool) (l : line) : tame E strict (print l).
Proof. intros w. simpl. exists []. split; [reflexivity | apply quiet_empty]. Qed.

Lemma tame_invoke (E : Env) (c : call) : tame E false (invoke E c).
Proof.
  intros w. unfold invoke.
  destruct (respond E (List.length (trace w)) c w) eqn:R; simpl.
  - exists [mkEvent c Passed]. split; [reflexivity|].
    apply quiet_step.
    destruct (env_signal E (List.length (trace w))) eqn:S; [|reflexivity].
    apply respond_Interrupted with (c := c) (w := w) in S. congruence.
  - split; [reflexivity|]. exists [mkEvent c (Failed msg)]. split; [reflexivity|].
    apply quiet_step.
    destruct (env_signal E (List.length (trace w))) eqn:S; [|reflexivity].
    apply respond_Interrupted with (c := c) (w := w) in S. congruence.
  - exists c, []. simpl. repeat split.
    + now apply respond_Interrupted in R.
    + apply quiet_empty.
Qed.

Lemma tame_bind (E : Env) (strict : bool) {A B} (m : M A) (f : A -> M B) :
  tame E strict m -> (forall a, tame E strict (f a)) -> tame E strict (bind m f).
Proof.
  intros Hm Hf w. unfold bind. specialize (Hm w).
  destruct (m w) as [[a|x|] w1]; simpl in *; try exact Hm.
  destruct Hm as (evs & Ht & Hq).
  specialize (Hf a w1).
  destruct (f a w1) as [[b|[]|] w2]; simpl in *; try exact Hf.
  - destruct Hf as (evs' & Ht' & Hq').
    exists (evs' ++ evs). split.
    + rewrite Ht', Ht. apply app_assoc.
    + eapply quiet_join; eassumption.
  - destruct Hf as (Hs & evs' & Ht' & Hq').
    split; [exact Hs|]. exists (evs' ++ evs). split.
    + rewrite Ht', Ht. apply app_assoc.
    + eapply quiet_join; eassumption.
  - destruct Hf as (c & evs' & Ht' & Hsig & Hq').
    exists c, (evs' ++ evs).
    rewrite <- app_assoc, <- Ht. repeat split; try assumption.
    eapply quiet_join; eassumption.
Qed.

Lemma tame_try_except (E : Env) {A} (body : M A) (handler : exn -> M A) :
  tame E false body -> (forall x, tame E true (handler x)) ->
  tame E true (try_except body handler).
Proof.
  intros Hb Hh w. unfold try_except. specialize (Hb w).
  destruct (body w) as [[a|[]|] w1]; simpl in *; try contradiction; try exact Hb.
  destruct Hb as (_ & evs & Ht & Hq).
  specialize (Hh (LibError msg) w1).
  destruct (handler (LibError msg) w1) as [[b|[]|] w2]; simpl in *; try contradiction.
  - destruct Hh as (evs' & Ht' & Hq').
    exists (evs' ++ evs). split.
    + rewrite Ht', Ht. apply app_assoc.
    + eapply quiet_join; eassumption.
  - destruct Hh as [Hh _]. discriminate.
  - destruct Hh as (c & evs' & Ht' & Hsig & Hq').
    exists c, (evs' ++ evs).
    rewrite <- app_assoc, <- Ht. repeat split; try assumption.
    eapply quiet_join; eassumption.
Qed.

Ltac tame_tac :=
  repeat first
    [ apply tame_try_except; [|intros ?]
    | apply tame_bind; [|intros ?]
    | apply tame_print
    | apply tame_ret
    | apply tame_invoke
    | apply tame_weaken ].

Lemma tame_insert_temperature (E : Env) (t : Q) (ts : string) :
  tame E true (insert_temperature E t ts).
Proof. unfold insert_temperature, conn_execute, conn_commit. tame_tac. Qed.

Lemma tame_insert_motion (E : Env) (m : Z) (ts : string) :
  tame E true (insert_motion E m ts).
Proof. unfold insert_motion, conn_execute, conn_commit. tame_tac. Qed.

Lemma tame_create_tables (E : Env) : tame E true (create_tables_if_not_exists E).
Proof. unfold create_tables_if_not_exists, conn_execute, conn_commit. tame_tac. Qed.

Lemma tame_sample_and_store (E : Env) : tame E true (sample_and_store E).
Proof.
  unfold sample_and_store, sensor_get_temperature, GPIO_input, datetime_now_isoformat.
  apply tame_try_except; [|intros x; apply tame_print].
  apply tame_bind; [tame_tac | intros t].
  apply tame_bind; [apply tame_print | intros _].
  apply tame_bind; [tame_tac | intros m].
  apply tame_bind; [tame_tac | intros ts].
  apply tame_bind; [apply tame_weaken, tame_insert_temperature | intros _].
  apply tame_bind; [apply tame_weaken, tame_insert_motion | intros _].
  destruct (Z.eqb m 0); apply tame_print.
Qed.

Lemma tame_invoke_strict (E : Env) (c : call) :
  can_fail c = false -> tame E true (invoke E c).
Proof.
  intros Hc w. pose proof (tame_invoke E c w) as H.
  destruct (invoke E c w) as [[k|[]|] w1] eqn:I; simpl in *; try exact H.
  exfalso. unfold invoke, respond in I. rewrite Hc in I.
  destruct (env_signal E (List.length (trace w))); discriminate.
Qed.

Lemma tame_time_sleep (E : Env) (seconds : Z) : tame E true (time_sleep E seconds).
Proof.
  unfold time_sleep.
  apply tame_bind; [now apply tame_invoke_strict | intros _; apply tame_ret].
Qed.

Lemma tame_loop_body (E : Env) : tame E true (loop_body E).
Proof.
  unfold loop_body.
  apply tame_bind; [apply tame_sample_and_store | intros _; apply tame_time_sleep].
Qed.

(** ** The sampling loop *)

(** An iteration that returns has just slept. *)
Lemma loop_body_returns (E : Env) (w : World) :
  fst (loop_body E w) = Ret tt ->
  exists evs, trace (snd (loop_body E w)) = mkEvent (CSleep 1) Passed :: evs ++ trace w.
Proof.
  pose proof (tame_sample_and_store E w) as Hs.
  unfold loop_body, bind.
  destruct (sample_and_store E w) as [[[]|x|] w1]; simpl in *; try discriminate.
  destruct Hs as (evs & Ht & _).
  unfold time_sleep, bind, invoke.
  destruct (respond E (List.length (trace w1)) (CSleep 1) w1); simpl; try discriminate.
  intros _. exists evs. now rewrite Ht.
Qed.

Lemma loop_body_cases (E : Env) (w : World) :
  (fst (loop_body E w) = Ret tt /\
   exists evs, trace (snd (loop_body E w)) = mkEvent (CSleep 1) Passed :: evs ++ trace w /\
               quiet E (List.length (trace w)) (S (List.length (evs ++ trace w))))
  \/
  (fst (loop_body E w) = Raise KeyboardInterrupt /\
   exists c evs, trace (snd (loop_body E w)) = mkEvent c Interrupted :: evs ++ trace w /\
                 env_signal E (List.length (evs ++ trace w)) = true /\
                 quiet E (List.length (trace w)) (List.length (evs ++ trace w))).
Proof.
  pose proof (tame_loop_body E w) as H.
  pose proof (loop_body_returns E w) as Hr.
  destruct (fst (loop_body E w)) as [[]|[]|]; simpl in H; try contradiction.
  - left. split; [reflexivity|].
    destruct (Hr eq_refl) as (evs & Ht). exists evs. split; [exact Ht|].
    destruct H as (_ & _ & Hq). rewrite Ht in Hq. exact Hq.
  - destruct H as [H _]. discriminate.
  - right. split; [reflexivity | exact H].
Qed.

Lemma while_true_S (n : nat) (body : M unit) (w : World) :
  while_true (S n) body w =
  match body w with
  | (Ret _, w') => while_true n body w'
  | (Raise x, w') => (Raise x, w')
  | (Running, w') => (Running, w')
  end.
Proof. reflexivity. Qed.

Lemma while_true_cases (E : Env) (n : nat) (w : World) :
  (fst (while_true n (loop_body E) w) = Running /\
   exists evs, trace (snd (while_true n (loop_body E) w)) = evs ++ trace w /\
               (n <= List.length evs)%nat /\
               quiet E (List.length (trace w)) (List.length (evs ++ trace w)))
  \/
  (fst (while_true n (loop_body E) w) = Raise KeyboardInterrupt /\
   exists c evs, trace (snd (while_true n (loop_body E) w)) = mkEvent c Interrupted :: evs ++ trace w /\
                 env_signal E (List.length (evs ++ trace w)) = true /\
                 quiet E (List.length (trace w)) (List.length (evs ++ trace w))).
Proof.
  revert w. induction n as [|n IH]; intros w.
  - left. simpl. split; [reflexivity|]. exists []. simpl.
    repeat split; [lia | apply quiet_empty].
  - rewrite while_true_S.
    destruct (loop_body_cases E w) as [(Hr & evs & Ht & Hq) | (Hr & c & evs & Ht & Hs & Hq)];
      destruct (loop_body E w) as [r w1]; simpl in Hr, Ht; subst r.
    + destruct (IH w1) as [(Hr' & evs' & Ht' & Hn & Hq') | (Hr' & c' & evs' & Ht' & Hs' & Hq')];
        [left | right]; (split; [exact Hr'|]).
      * exists (evs' ++ mkEvent (CSleep 1) Passed :: evs).
        rewrite <- app_assoc. simpl. rewrite <- Ht. repeat split; try assumption.
        -- rewrite length_app. simpl. lia.
        -- eapply quiet_join; [|exact Hq']. rewrite Ht. exact Hq.
      * exists c', (evs' ++ mkEvent (CSleep 1) Passed :: evs).
        rewrite <- app_assoc. simpl. rewrite <- Ht. repeat split; try assumption.
        eapply quiet_join; [|exact Hq']. rewrite Ht. exact Hq.
    + right. simpl. split; [reflexivity|]. exists c, evs. now repeat split.
Qed.

(** C4.  Whatever the sensors, the store and the connection do, an
    iteration of the loop is left in one of two ways only: it returns,
    having reached [time.sleep(1)], or it raises [KeyboardInterrupt] out
    of a call during which the signal arrived.  Hence the loop is either
    still running after [n] iterations or was stopped by the signal; with
    no signal it is still running after any number of iterations. *)
Theorem loop_stops_only_on_interrupt (E : Env) :
  (forall w,
      (fst (loop_body E w) = Ret tt /\
       exists evs, trace (snd (loop_body E w)) = mkEvent (CSleep 1) Passed :: evs ++ trace w)
      \/
      (fst (loop_body E w) = Raise KeyboardInterrupt /\
       exists c evs, trace (snd (loop_body E w)) = mkEvent c Interrupted :: evs ++ trace w /\
                     env_signal E (List.length (evs ++ trace w)) = true))
  /\
  (forall n w,
      fst (while_true n (loop_body E) w) = Running
      \/
      (fst (while_true n (loop_body E) w) = Raise KeyboardInterrupt /\
       exists c evs,
         trace (snd (while_true n (loop_body E) w)) = mkEvent c Interrupted :: evs ++ trace w /\
         env_signal E (List.length (evs ++ trace w)) = true))
  /\
  ((forall k, env_signal E k = false) ->
   forall n w, fst (while_true n (loop_body E) w) = Running).
Proof.
  split; [|split].
  - intros w.
    destruct (loop_body_cases E w) as [(Hr & evs & Ht & _) | (Hr & c & evs & Ht & Hs & _)];
      [left | right]; (split; [exact Hr|]); eauto.
  - intros n w.
    destruct (while_true_cases E n w) as [(Hr & _) | (Hr & c & evs & Ht & Hs & _)];
      [left | right]; [exact Hr|]. split; [exact Hr|]; eauto.
  - intros Hcalm n w.
    destruct (while_true_cases E n w) as [(Hr & _) | (_ & c & evs & _ & Hs & _)];
      [exact Hr|]. rewrite Hcalm in Hs. discriminate.
Qed.

Lemma loop_stops_only_on_interrupt_witness :
  fst (while_true 5 (loop_body dropped) (boot seeded)) = Running.
Proof.
  apply (loop_stops_only_on_interrupt dropped); reflexivity.
Defined.

Lemma while_true_quiet (E : Env) (n : nat) (w : World) :
  (forall k, env_signal E k = false) -> fst (while_true n (loop_body E) w) = Running.
Proof.
  intros Hcalm.
  destruct (while_true_cases E n w) as [(Hr & _) | (_ & c & evs & _ & Hs & _)];
    [exact Hr|]. rewrite Hcalm in Hs. discriminate.
Qed.

(** The signal that arrives during call [k] stops a loop that has
    iterations left to reach it. *)
Lemma while_true_interrupted (E : Env) (n k : nat) (w : World) :
  env_signal E k = true -> quiet E 0 k ->
  (List.length (trace w) <= k < n + List.length (trace w))%nat ->
  exists c evs,
    while_true n (loop_body E) w =
      (Raise KeyboardInterrupt, snd (while_true n (loop_body E) w)) /\
    trace (snd (while_true n (loop_body E) w)) = mkEvent c Interrupted :: evs ++ trace w /\
    List.length (evs ++ trace w) = k.
Proof.
  intros Hk Hfirst Hrange.
  destruct (while_true_cases E n w) as [(_ & evs & _ & Hn & Hq) | (Hr & c & evs & Ht & Hs & Hq)].
  - rewrite length_app in Hq. rewrite Hq in Hk; [discriminate | lia].
  - exists c, evs. repeat split; try assumption.
    + destruct (while_true n (loop_body E) w); simpl in *. now subst.
    + destruct (Nat.lt_trichotomy (List.length (evs ++ trace w)) k) as [Hlt | [Heq | Hgt]].
      * rewrite Hfirst in Hs; [discriminate | lia].
      * exact Heq.
      * rewrite Hq in Hk; [discriminate | lia].
Qed.

(** ** The lifecycle *)

Lemma valid_vars_pass (vars : environ) :
  valid_vars vars ->
  negb (truthy (getenv "API_KEY" vars)) || negb (truthy (getenv "DATABASE_URL" vars))
    || negb (truthy (getenv "DB_NAME" vars)) = false.
Proof. intros (-> & -> & ->). reflexivity. Qed.

(** Symbolic runs: unfold the control structure, then settle the calls
    one by one, oldest first. *)
Ltac py_unfold :=
  cbv beta delta [bind try_except try_except_KeyboardInterrupt try_finally ret raise print exit_
    sqlitecloud_connect conn_execute conn_commit conn_close W1ThermSensor
    sensor_get_temperature GPIO_setmode GPIO_setup GPIO_input GPIO_cleanup
    datetime_now_isoformat time_sleep invoke log emit effect boot started].

Ltac py_simpl :=
  cbn [trace stdout db conn_live List.length fst snd is_Exception str live_after db_after
       Nat.add ev_call ev_outcome].

Tactic Notation "py_simpl" "in" hyp(H) :=
  cbn [trace stdout db conn_live List.length fst snd is_Exception str live_after db_after
       Nat.add ev_call ev_outcome] in H.

Ltac pass := rewrite respond_calm by assumption; py_simpl.

Lemma respond_cannot_fail (E : Env) (k : nat) (c : call) (w : World) (m : string) :
  can_fail c = false -> respond E k c w = Failed m -> False.
Proof.
  intros Hc. unfold respond. rewrite Hc.
  destruct (env_signal E k); discriminate.
Qed.

Ltac fork :=
  match goal with
  | |- context [respond ?E ?k ?c ?w] =>
      let R := fresh "R" in
      destruct (respond E k c w) eqn:R;
      try solve [exfalso; apply (respond_cannot_fail E k c w) in R; [exact R | reflexivity]]
  end; py_simpl.

(** With its three variables set and the first four calls undisturbed,
    the script reaches the creation of the tables holding a connection,
    the sensor and the pin. *)
Lemma script_startup (E : Env) (vars : environ) (fuel : nat) (s : store) :
  valid_vars vars -> calm_window E 0 4 ->
  script E vars fuel (boot s) =
  (create_tables_if_not_exists E ;; main_block E fuel)%py (started vars s).
Proof.
  intros Hv Hc. unfold script. rewrite (valid_vars_pass vars Hv).
  destruct (Hc 0%nat ltac:(lia)) as [S0 E0]. destruct (Hc 1%nat ltac:(lia)) as [S1 E1].
  destruct (Hc 2%nat ltac:(lia)) as [S2 E2]. destruct (Hc 3%nat ltac:(lia)) as [S3 E3].
  simpl in S0, E0, S1, E1, S2, E2, S3, E3.
  set (rest := (create_tables_if_not_exists E ;; main_block E fuel)%py).
  py_unfold. py_simpl. pass. pass. pass. pass.
  reflexivity.
Qed.

Lemma respond_total (E : Env) (k : nat) (c : call) (w : World) :
  env_signal E k = false -> can_fail c = false -> respond E k c w = Passed.
Proof. intros Hs Hc. unfold respond. now rewrite Hs, Hc. Qed.

Lemma respond_create (E : Env) (k : nat) (name column : string) (w : World) :
  env_signal E k = false -> env_error E k = None ->
  respond E k (CExecute (CreateTableIfNotExists name column)) w = Passed.
Proof. intros Hs He. rewrite respond_calm by assumption. now rewrite run_create. Qed.

(** A failure while the tables are created is printed and swallowed. *)
Lemma create_tables_failure (E : Env) (w : World) (j : nat) (m : string) :
  (j < 3)%nat ->
  (forall i, (i <= j)%nat -> env_signal E (i + List.length (trace w)) = false) ->
  (forall i, (i < j)%nat -> env_error E (i + List.length (trace w)) = None) ->
  env_error E (j + List.length (trace w)) = Some m ->
  fst (create_tables_if_not_exists E w) = Ret tt /\
  stdout (snd (create_tables_if_not_exists E w)) = L_failed_create m :: stdout w /\
  conn_live (snd (create_tables_if_not_exists E w)) = conn_live w.
Proof.
  intros Hj Hs He Hm.
  unfold create_tables_if_not_exists, create_motion_table_query, create_temperature_table_query.
  py_unfold. py_simpl.
  destruct j as [|[|[|j]]]; [| | |lia].
  - rewrite (respond_failing E _ _ _ m); [py_simpl; auto | apply (Hs 0%nat); lia | exact Hm | reflexivity].
  - rewrite respond_create; [py_simpl | apply (Hs 0%nat); lia | apply (He 0%nat); lia].
    rewrite (respond_failing E _ _ _ m); [py_simpl; auto | apply (Hs 1%nat); lia | exact Hm | reflexivity].
  - rewrite respond_create; [py_simpl | apply (Hs 0%nat); lia | apply (He 0%nat); lia].
    rewrite respond_create; [py_simpl | apply (Hs 1%nat); lia | apply (He 1%nat); lia].
    rewrite (respond_failing E _ _ _ m); [py_simpl; auto | apply (Hs 2%nat); lia | exact Hm | reflexivity].
Qed.

(** Undisturbed, the creation of the tables takes three calls. *)
Lemma create_tables_calm (E : Env) (w : World) :
  calm_window E (List.length (trace w)) 3 ->
  create_tables_if_not_exists E w =
  (Ret tt,
   mkWorld (mkEvent CCommit Passed
              :: mkEvent (CExecute create_temperature_table_query) Passed
              :: mkEvent (CExecute create_motion_table_query) Passed :: trace w)
           (L_tables_ready :: stdout w)
           (create_table "temperature" "temperature"
              (create_table "motion" "motion_detected" (db w)))
           (conn_live w)).
Proof.
  intros Hc.
  destruct (Hc 0%nat ltac:(lia)) as [S0 E0]. destruct (Hc 1%nat ltac:(lia)) as [S1 E1].
  destruct (Hc 2%nat ltac:(lia)) as [S2 E2]. simpl in S0, E0, S1, E1, S2, E2.
  unfold create_tables_if_not_exists, create_motion_table_query, create_temperature_table_query.
  py_unfold. py_simpl.
  rewrite respond_create by assumption. py_simpl.
  rewrite respond_create by assumption. py_simpl.
  pass. reflexivity.
Qed.

Lemma main_block_running (E : Env) (fuel : nat) (w : World) :
  (forall k, env_signal E k = false) -> fst (main_block E fuel w) = Running.
Proof.
  intros Hq. unfold main_block, main_try. py_unfold. py_simpl.
  rewrite respond_total by auto. py_simpl.
  pose proof (while_true_quiet E fuel
    (mkWorld (mkEvent (CSleep 2) Passed :: trace w) (L_ready :: L_system_test :: stdout w)
             (db w) (conn_live w)) Hq) as Hr.
  destruct (while_true fuel (loop_body E) _) as [r w1]. simpl in Hr. now subst r.
Qed.


(** The first signal, arriving during call [k], is raised out of the
    body of the outer [try] when the loop has iterations left to reach
    that call. *)
Lemma main_try_interrupted (E : Env) (fuel k : nat) (w : World) :
  env_signal E k = true -> quiet E 0 k ->
  (List.length (trace w) <= k <= fuel + List.length (trace w))%nat ->
  exists c evs,
    main_try E fuel w = (Raise KeyboardInterrupt, snd (main_try E fuel w)) /\
    trace (snd (main_try E fuel w)) = mkEvent c Interrupted :: evs ++ trace w /\
    List.length (evs ++ trace w) = k.
Proof.
  intros Hk Hfirst Hrange.
  unfold main_try. py_unfold. py_simpl.
  destruct (Nat.eq_dec (List.length (trace w)) k) as [Heq | Hne].
  - rewrite (proj2 (respond_Interrupted E _ (CSleep 2) _)) by (now rewrite Heq).
    py_simpl. exists (CSleep 2), []. repeat split. exact Heq.
  - rewrite respond_total; [py_simpl | apply Hfirst; lia | reflexivity].
    match goal with
    | |- context [while_true fuel (loop_body E) ?w0] =>
        destruct (while_true_interrupted E fuel k w0 Hk Hfirst) as (c & evs & Hrun & Ht & Hlen)
    end; [py_simpl; lia|].
    rewrite Hrun. py_simpl in Ht. py_simpl in Hlen.
    py_simpl. exists c, (evs ++ [mkEvent (CSleep 2) Passed]).
    rewrite <- app_assoc. simpl. now repeat split.
Qed.


Lemma calm_window_part (E : Env) (k n k' n' : nat) :
  calm_window E k n -> (k <= k')%nat -> (k' + n' <= k + n)%nat -> calm_window E k' n'.
Proof.
  intros H Hk Hn i Hi.
  replace (i + k')%nat with ((i + (k' - k)) + k)%nat by lia.
  apply H. lia.
Qed.

(** What the claim C7 says fails twice: when the connection cannot be
    opened the script ends through [exit()], status 0; when the store
    rejects [CREATE TABLE] the script prints the failure and goes on
    sampling. *)
Lemma startup_failures_counterexample :
  script unreachable good_vars 1 (boot []) =
    (Raise (SystemExit None),
     mkWorld [mkEvent (CConnect "sqlitecloud://host:8860/pi.db?apikey=k")
                      (Failed "connection refused")]
             [L_failed_connect "connection refused"] [] false)
  /\ exit_status (fst (script unreachable good_vars 1 (boot []))) = Some 0
  /\ fst (script read_only good_vars 3 (boot [])) = Running
  /\ In (L_failed_create "not authorized") (stdout (snd (script read_only good_vars 3 (boot []))))
  /\ count (fun e => passed e && is_sensor_read e)
           (trace (snd (script read_only good_vars 3 (boot [])))) = 6%nat.
Proof. vm_compute. intuition. Qed.

(** C7, as the code has it.  A configuration error is an uncaught
    [ValueError]: status 1, nothing printed by the script.  A failure to
    open the connection is printed and ends the process through [exit()],
    before any other call.  A failure to create the tables is printed and
    does not end the process: the script enters the outer [try], and with
    no signal it is still sampling after any number of iterations. *)
Theorem startup_failures (E : Env) (vars : environ) (fuel : nat) (s : store) :
  (unset_or_empty "API_KEY" vars \/ unset_or_empty "DATABASE_URL" vars \/
   unset_or_empty "DB_NAME" vars ->
   exit_status (fst (script E vars fuel (boot s))) = Some 1 /\
   stdout (snd (script E vars fuel (boot s))) = [])
  /\
  (valid_vars vars -> env_signal E 0 = false ->
   forall m, env_error E 0 = Some m ->
   script E vars fuel (boot s) =
     (Raise (SystemExit None),
      mkWorld [mkEvent (CConnect (connection_url vars)) (Failed m)]
              [L_failed_connect m] s false))
  /\
  (valid_vars vars -> (forall k, env_signal E k = false) ->
   forall j m, (4 <= j <= 6)%nat -> env_error E j = Some m ->
   (forall i, (i < j)%nat -> env_error E i = None) ->
   exists w1,
     script E vars fuel (boot s) = main_block E fuel w1 /\
     stdout w1 = [L_failed_create m; L_connected] /\
     fst (main_block E fuel w1) = Running).
Proof.
  split; [|split].
  - intros H.
    rewrite (script_without_configuration E vars fuel (boot s) H). split; reflexivity.
  - intros Hv Hs m Hm.
    unfold script. rewrite (valid_vars_pass vars Hv).
    py_unfold. py_simpl.
    rewrite (respond_failing E _ _ _ m) by auto. py_simpl. reflexivity.
  - intros Hv Hq j m Hj Hm He.
    rewrite script_startup; [|exact Hv | intros i Hi; split; [apply Hq | apply He; lia]].
    destruct (create_tables_failure E (started vars s) (j - 4) m) as (Hr & Hout & _).
    + lia.
    + intros i _. apply Hq.
    + intros i Hi. apply He. simpl. lia.
    + simpl. replace (j - 4 + 4)%nat with j by lia. exact Hm.
    + unfold bind.
      destruct (create_tables_if_not_exists E (started vars s)) as [r w1].
      simpl in Hr, Hout. subst r. exists w1. repeat split.
      * exact Hout.
      * now apply main_block_running.
Qed.

Lemma startup_failures_witness :
  exit_status (fst (script calm [("API_KEY", "k")] 2 (boot seeded))) = Some 1 /\
  fst (script unreachable good_vars 2 (boot seeded)) = Raise (SystemExit None) /\
  exists w1,
    script read_only good_vars 2 (boot seeded) = main_block read_only 2 w1 /\
    stdout w1 = [L_failed_create "not authorized"; L_connected] /\
    fst (main_block read_only 2 w1) = Running.
Proof.
  split; [|split].
  - destruct (startup_failures calm [("API_KEY", "k")] 2 seeded) as (H & _ & _).
    apply H. right; left. left. reflexivity.
  - destruct (startup_failures unreachable good_vars 2 seeded) as (_ & H & _).
    now rewrite (H ltac:(repeat split) eq_refl "connection refused" eq_refl).
  - destruct (startup_failures read_only good_vars 2 seeded) as (_ & _ & H).
    apply (H ltac:(repeat split) ltac:(reflexivity) 4%nat "not authorized"
             ltac:(lia) eq_refl).
    intros i Hi. do 4 (destruct i as [|i]; [reflexivity|]). lia.
Defined.




(** ** One tick *)

Lemma rows_of_other (other : string) (s s' : store) :
  lookup other s' = lookup other s -> rows_of other s' = rows_of other s.
Proof. unfold rows_of. now intros ->. Qed.

(** The two inserts of a tick, both accepted. *)
Lemma insert_pair (ts : string) (t : Q) (m : Z) (s s1 s2 : store) :
  run_stmt (InsertInto "temperature" "temperature" ts (VReal t)) s = inr s1 ->
  run_stmt (InsertInto "motion" "motion_detected" ts (VInt m)) s1 = inr s2 ->
  rows_of "temperature" s2 =
    rows_of "temperature" s ++ [mkRow (next_id (rows_of "temperature" s)) ts (VReal t)] /\
  rows_of "motion" s2 =
    rows_of "motion" s ++ [mkRow (next_id (rows_of "motion" s)) ts (VInt m)] /\
  (forall other, other <> "temperature" -> other <> "motion" ->
                 lookup other s2 = lookup other s).
Proof.
  intros H1 H2.
  apply run_insert in H1. destruct H1 as (Ht & Ho1 & _).
  apply run_insert in H2. destruct H2 as (Hm & Ho2 & _).
  repeat split.
  - rewrite (rows_of_other "temperature" s1 s2) by (apply Ho2; discriminate).
    exact Ht.
  - rewrite Hm.
    rewrite (rows_of_other "motion" s s1) by (apply Ho1; discriminate).
    reflexivity.
  - intros other Hn1 Hn2. rewrite Ho2 by assumption. now apply Ho1.
Qed.

Ltac prefix_of l base :=
  lazymatch l with
  | base => lazymatch type of base with list ?A => constr:(@nil A) end
  | ?x :: ?l' => let p := prefix_of l' base in constr:(x :: p)
  end.

(** Computes [new_part old (x1 :: ... :: xn :: old)]. *)
Ltac settle_new :=
  unfold events_between, lines_between; py_simpl;
  repeat match goal with
         | |- context [new_part ?b ?l] =>
             let p := prefix_of l b in
             change (new_part b l) with (new_part b (p ++ b));
             rewrite (new_part_app p b)
         end.

(** All the ways through a piece of the script, one goal for each. *)
Ltac fork_pin :=
  match goal with
  | |- context [Z.eqb ?m 0] => destruct (Z.eqb m 0)
  end.

Ltac all_runs := py_unfold; py_simpl; repeat first [fork | fork_pin].

(** C1.  In a tick all of whose calls pass (the two sensor reads, the
    clock, and [execute] and [commit] of both inserts), the calls are, in
    order: temperature read, pin read, one clock read, the temperature
    insert, the motion insert.  The timestamp of both statements is the
    answer of that single clock read, the temperature is the value the
    sensor returned and the motion flag the value the pin returned.  One
    row is appended to [temperature] and one to [motion], both with that
    timestamp, and no other table changes. *)
Theorem tick_records_pair (E : Env) (w : World) :
  forallb passed (events_between w (snd (sample_and_store E w))) = true ->
  let t := env_temperature E (List.length (trace w)) in
  let m := env_pin E (1 + List.length (trace w)) in
  let ts := env_now E (2 + List.length (trace w)) in
  fst (sample_and_store E w) = Ret tt /\
  rev (events_between w (snd (sample_and_store E w))) =
    [mkEvent CGetTemperature Passed;
     mkEvent (CGpioInput PIR_PIN) Passed;
     mkEvent CNow Passed;
     mkEvent (CExecute (InsertInto "temperature" "temperature" ts (VReal t))) Passed;
     mkEvent CCommit Passed;
     mkEvent (CExecute (InsertInto "motion" "motion_detected" ts (VInt m))) Passed;
     mkEvent CCommit Passed] /\
  rows_of "temperature" (db (snd (sample_and_store E w))) =
    rows_of "temperature" (db w)
      ++ [mkRow (next_id (rows_of "temperature" (db w))) ts (VReal t)] /\
  rows_of "motion" (db (snd (sample_and_store E w))) =
    rows_of "motion" (db w)
      ++ [mkRow (next_id (rows_of "motion" (db w))) ts (VInt m)] /\
  (forall other, other <> "temperature" -> other <> "motion" ->
                 lookup other (db (snd (sample_and_store E w))) = lookup other (db w)).
Proof.
  cbv zeta.
  destruct (sample_and_store E w) as [r w'] eqn:Hrun. simpl fst. simpl snd.
  revert Hrun. unfold sample_and_store, insert_temperature, insert_motion.
  all_runs; intros [= <- <-]; settle_new; try discriminate; intros _.
  all: repeat match goal with
              | H : respond _ _ (CExecute _) _ = Passed |- _ =>
                  apply respond_execute_Passed in H; py_simpl in H
              end.
  all: split; [reflexivity|]; split; [reflexivity|];
    eapply insert_pair; eassumption.
Qed.

Lemma tick_records_pair_witness :
  fst (sample_and_store calm (boot seeded)) = Ret tt /\
  rev (events_between (boot seeded) (snd (sample_and_store calm (boot seeded)))) =
    [mkEvent CGetTemperature Passed;
     mkEvent (CGpioInput PIR_PIN) Passed;
     mkEvent CNow Passed;
     mkEvent (CExecute (InsertInto "temperature" "temperature" "2024-01-01T00:00:00"
                                   (VReal (43 # 2)))) Passed;
     mkEvent CCommit Passed;
     mkEvent (CExecute (InsertInto "motion" "motion_detected" "2024-01-01T00:00:00"
                                   (VInt 1))) Passed;
     mkEvent CCommit Passed] /\
  rows_of "temperature" (db (snd (sample_and_store calm (boot seeded)))) =
    rows_of "temperature" seeded
      ++ [mkRow (next_id (rows_of "temperature" seeded)) "2024-01-01T00:00:00"
                (VReal (43 # 2))] /\
  rows_of "motion" (db (snd (sample_and_store calm (boot seeded)))) =
    rows_of "motion" seeded
      ++ [mkRow (next_id (rows_of "motion" seeded)) "2024-01-01T00:00:00" (VInt 1)] /\
  (forall other, other <> "temperature" -> other <> "motion" ->
                 lookup other (db (snd (sample_and_store calm (boot seeded)))) =
                 lookup other seeded).
Proof.
  apply (tick_records_pair calm (boot seeded)). reflexivity.
Defined.


Ltac find_in := cbn [In]; solve [repeat first [left; reflexivity | right]].

(** C3.  A tick in which a sensor read fails (the temperature read, or
    the pin read after it) makes no further call: each sensor is asked at
    most once and nothing is sent to the store, which is unchanged.  The
    error is printed, the iteration goes on to [time.sleep(1)], and unless
    the signal arrives during that sleep the loop runs its remaining
    iterations. *)
Theorem failed_read_skips_tick (E : Env) (w : World) (m : string) :
  In (mkEvent CGetTemperature (Failed m)) (events_between w (snd (sample_and_store E w))) \/
  In (mkEvent (CGpioInput PIR_PIN) (Failed m)) (events_between w (snd (sample_and_store E w))) ->
  fst (sample_and_store E w) = Ret tt /\
  (events_between w (snd (sample_and_store E w)) = [mkEvent CGetTemperature (Failed m)] \/
   events_between w (snd (sample_and_store E w)) =
     [mkEvent (CGpioInput PIR_PIN) (Failed m); mkEvent CGetTemperature Passed]) /\
  db (snd (sample_and_store E w)) = db w /\
  In (L_error m) (lines_between w (snd (sample_and_store E w))) /\
  loop_body E w = time_sleep E 1 (snd (sample_and_store E w)) /\
  (env_signal E (List.length (trace (snd (sample_and_store E w)))) = false ->
   forall n,
     while_true (S n) (loop_body E) w =
     while_true n (loop_body E)
       (log (mkEvent (CSleep 1) Passed) (snd (sample_and_store E w)))).
Proof.
  intros Hfail.
  assert (Hret : fst (sample_and_store E w) = Ret tt /\
                 (events_between w (snd (sample_and_store E w)) =
                    [mkEvent CGetTemperature (Failed m)] \/
                  events_between w (snd (sample_and_store E w)) =
                    [mkEvent (CGpioInput PIR_PIN) (Failed m); mkEvent CGetTemperature Passed]) /\
                 db (snd (sample_and_store E w)) = db w /\
                 In (L_error m) (lines_between w (snd (sample_and_store E w)))).
  { revert Hfail.
    destruct (sample_and_store E w) as [r w'] eqn:Hrun. simpl fst. simpl snd.
    revert Hrun. unfold sample_and_store, insert_temperature, insert_motion.
    all_runs; intros [= <- <-]; settle_new; cbn [In];
      intros Hfail; decompose [or] Hfail; try discriminate; try contradiction.
    all: match goal with H : mkEvent _ _ = mkEvent _ _ |- _ => injection H as <- end.
    all: repeat split; auto. }
  destruct Hret as (Hr & Hev & Hdb & Hout). repeat split; try assumption.
  - unfold loop_body, bind.
    destruct (sample_and_store E w) as [r w']. simpl in Hr. now subst r.
  - intros Hsig n. rewrite while_true_S. unfold loop_body, bind.
    destruct (sample_and_store E w) as [r w']. simpl in *. subst r.
    unfold time_sleep, bind, invoke.
    rewrite respond_total by auto. reflexivity.
Qed.

Lemma failed_read_skips_tick_witness :
  fst (sample_and_store no_probe (boot seeded)) = Ret tt /\
  db (snd (sample_and_store no_probe (boot seeded))) = seeded /\
  while_true 3 (loop_body no_probe) (boot seeded) =
  while_true 2 (loop_body no_probe)
    (log (mkEvent (CSleep 1) Passed) (snd (sample_and_store no_probe (boot seeded)))).
Proof.
  destruct (failed_read_skips_tick no_probe (boot seeded) "sensor not ready")
    as (Hr & _ & Hdb & _ & _ & Hloop).
  - left. vm_compute. left. reflexivity.
  - split; [exact Hr | split; [exact Hdb |]]. apply Hloop. reflexivity.
Defined.

(** ** Failed inserts *)



(** Splits [In x [a; b; ...]] in a hypothesis into its cases and drops
    the impossible ones. *)
Ltac cases_in H :=
  cbn [In] in H; decompose [or] H; try discriminate; try contradiction.

(** C8.  Every call that fails inside one of the four operations is
    followed by a line on the console that carries its message: [Failed
    to create tables] from the creation of the tables, the error line of
    the insert from [insert_temperature] and from [insert_motion], and in
    a tick [Error:] for a failed sensor read and the insert's own line for
    a failed insert. *)
Theorem every_error_is_printed (E : Env) (w : World) :
  (forall c m,
      In (mkEvent c (Failed m)) (events_between w (snd (create_tables_if_not_exists E w))) ->
      In (L_failed_create m) (lines_between w (snd (create_tables_if_not_exists E w))))
  /\
  (forall t ts c m,
      In (mkEvent c (Failed m)) (events_between w (snd (insert_temperature E t ts w))) ->
      In (L_temperature_error m) (lines_between w (snd (insert_temperature E t ts w))))
  /\
  (forall mo ts c m,
      In (mkEvent c (Failed m)) (events_between w (snd (insert_motion E mo ts w))) ->
      In (L_motion_error m) (lines_between w (snd (insert_motion E mo ts w))))
  /\
  (forall c m,
      In (mkEvent c (Failed m)) (events_between w (snd (sample_and_store E w))) ->
      if is_sensor_read (mkEvent c (Failed m))
      then In (L_error m) (lines_between w (snd (sample_and_store E w)))
      else In (L_temperature_error m) (lines_between w (snd (sample_and_store E w))) \/
           In (L_motion_error m) (lines_between w (snd (sample_and_store E w)))).
Proof.
  split; [|split; [|split]].
  - destruct (create_tables_if_not_exists E w) as [r w'] eqn:Hrun. simpl snd.
    revert Hrun. unfold create_tables_if_not_exists.
    all_runs; intros [= <- <-]; settle_new; intros c m Hin; cases_in Hin.
    all: match goal with H : mkEvent _ _ = mkEvent _ _ |- _ => injection H as <- <- end.
    all: find_in.
  - intros t ts.
    destruct (insert_temperature E t ts w) as [r w'] eqn:Hrun. simpl snd.
    revert Hrun. unfold insert_temperature.
    all_runs; intros [= <- <-]; settle_new; intros c m Hin; cases_in Hin.
    all: match goal with H : mkEvent _ _ = mkEvent _ _ |- _ => injection H as <- <- end.
    all: find_in.
  - intros mo ts.
    destruct (insert_motion E mo ts w) as [r w'] eqn:Hrun. simpl snd.
    revert Hrun. unfold insert_motion.
    all_runs; intros [= <- <-]; settle_new; intros c m Hin; cases_in Hin.
    all: match goal with H : mkEvent _ _ = mkEvent _ _ |- _ => injection H as <- <- end.
    all: find_in.
  - destruct (sample_and_store E w) as [r w'] eqn:Hrun. simpl snd.
    revert Hrun. unfold sample_and_store, insert_temperature, insert_motion.
    all_runs; intros [= <- <-]; settle_new; intros c m Hin; cases_in Hin.
    all: match goal with H : mkEvent _ _ = mkEvent _ _ |- _ => injection H as <- <- end.
    all: cbn [is_sensor_read ev_call]; first [find_in | left; find_in | right; find_in].
Qed.

Lemma every_error_is_printed_witness :
  In (L_temperature_error "connection lost")
     (lines_between (boot seeded) (snd (sample_and_store dropped (boot seeded)))) \/
  In (L_motion_error "connection lost")
     (lines_between (boot seeded) (snd (sample_and_store dropped (boot seeded)))).
Proof.
  destruct (every_error_is_printed dropped (boot seeded)) as (_ & _ & _ & H).
  apply (H (CExecute (InsertInto "temperature" "temperature" "2024-01-01T00:00:00"
                                 (VReal (43 # 2))))
           "connection lost").
  vm_compute. do 2 right. left. reflexivity.
Defined.

Ltac place_events :=
  first [ solve [exists [], []; reflexivity]
        | solve [eexists [_], []; reflexivity]
        | solve [eexists [], [_]; reflexivity]
        | solve [eexists [_], [_]; reflexivity] ].

(** C10.  Neither insert lets an [Exception] out: it returns, or the
    signal arrived during one of its calls.  So in a tick in which
    [insert_temperature] printed its error, the motion statement is still
    sent afterwards, with the same timestamp; and when it was the
    temperature statement that failed and the motion insert succeeded,
    [motion] gains the row of this tick while [temperature] does not. *)
Theorem inserts_swallow_errors (E : Env) (w : World) :
  (forall t ts,
      fst (insert_temperature E t ts w) = Ret tt \/
      (fst (insert_temperature E t ts w) = Raise KeyboardInterrupt /\
       exists c, hd_error (trace (snd (insert_temperature E t ts w))) =
                 Some (mkEvent c Interrupted)))
  /\
  (forall mo ts,
      fst (insert_motion E mo ts w) = Ret tt \/
      (fst (insert_motion E mo ts w) = Raise KeyboardInterrupt /\
       exists c, hd_error (trace (snd (insert_motion E mo ts w))) =
                 Some (mkEvent c Interrupted)))
  /\
  (forall m,
      In (L_temperature_error m) (lines_between w (snd (sample_and_store E w))) ->
      exists t ts mo o o' later between,
        events_between w (snd (sample_and_store E w)) =
          later
          ++ mkEvent (CExecute (InsertInto "motion" "motion_detected" ts (VInt mo))) o'
          :: between
          ++ mkEvent (CExecute (InsertInto "temperature" "temperature" ts (VReal t))) o
          :: [mkEvent CNow Passed; mkEvent (CGpioInput PIR_PIN) Passed;
              mkEvent CGetTemperature Passed])
  /\
  (forall m t ts mo,
      In (mkEvent (CExecute (InsertInto "temperature" "temperature" ts (VReal t))) (Failed m))
         (events_between w (snd (sample_and_store E w))) ->
      In (L_motion_inserted ts mo) (lines_between w (snd (sample_and_store E w))) ->
      rows_of "motion" (db (snd (sample_and_store E w))) =
        rows_of "motion" (db w) ++ [mkRow (next_id (rows_of "motion" (db w))) ts (VInt mo)] /\
      rows_of "temperature" (db (snd (sample_and_store E w))) =
        rows_of "temperature" (db w)).
Proof.
  split; [|split; [|split]].
  - intros t ts.
    destruct (insert_temperature E t ts w) as [r w'] eqn:Hrun. simpl fst. simpl snd.
    revert Hrun. unfold insert_temperature.
    all_runs; intros [= <- <-]; py_simpl; first [now left | right; split; [reflexivity | eexists; reflexivity]].
  - intros mo ts.
    destruct (insert_motion E mo ts w) as [r w'] eqn:Hrun. simpl fst. simpl snd.
    revert Hrun. unfold insert_motion.
    all_runs; intros [= <- <-]; py_simpl; first [now left | right; split; [reflexivity | eexists; reflexivity]].
  - destruct (sample_and_store E w) as [r w'] eqn:Hrun. simpl snd.
    revert Hrun. unfold sample_and_store, insert_temperature, insert_motion.
    all_runs; intros [= <- <-]; settle_new; intros m Hin; cases_in Hin.
    all: do 5 eexists; place_events.
  - destruct (sample_and_store E w) as [r w'] eqn:Hrun. simpl snd.
    revert Hrun. unfold sample_and_store, insert_temperature, insert_motion.
    all_runs; intros [= <- <-]; settle_new; intros m t ts mo Hin Hout;
      cases_in Hin; cases_in Hout.
    all: repeat match goal with
                | H : mkEvent _ _ = mkEvent _ _ |- _ => injection H as <- <- <-
                | H : L_motion_inserted _ _ = L_motion_inserted _ _ |- _ => injection H as <-
                end.
    all: match goal with
         | H : respond _ _ (CExecute (InsertInto "motion" _ _ _)) _ = Passed |- _ =>
             apply respond_execute_Passed in H; py_simpl in H;
             apply run_insert in H; destruct H as (Hrows & Hother & _)
         end.
    all: split; [exact Hrows | apply rows_of_other, Hother; discriminate].
Qed.

Lemma inserts_swallow_errors_witness :
  rows_of "motion" (db (snd (sample_and_store dropped (boot seeded)))) =
    rows_of "motion" seeded ++ [mkRow 2 "2024-01-01T00:00:00" (VInt 1)] /\
  rows_of "temperature" (db (snd (sample_and_store dropped (boot seeded)))) =
    rows_of "temperature" seeded.
Proof.
  destruct (inserts_swallow_errors dropped (boot seeded)) as (_ & _ & _ & H).
  apply (H "connection lost" (43 # 2) "2024-01-01T00:00:00" 1).
  - vm_compute. do 2 right. left. reflexivity.
  - vm_compute. right. left. reflexivity.
Defined.

(** ** The schema *)

Lemma extends_refl (s : store) : extends s s.
Proof. split; auto. Qed.

Lemma extends_trans (s1 s2 s3 : store) :
  extends s1 s2 -> extends s2 s3 -> extends s1 s3.
Proof. intros [N1 L1] [N2 L2]. split; auto. Qed.

Lemma extends_create_table (name column : string) (s : store) :
  extends s (create_table name column s).
Proof.
  split; [apply create_table_NoDup | intros other t; apply create_table_keeps].
Qed.

(** Whatever happens while the tables are created, the store only gains
    tables. *)
Lemma create_tables_extends (E : Env) (w : World) :
  extends (db w) (db (snd (create_tables_if_not_exists E w))).
Proof.
  destruct (create_tables_if_not_exists E w) as [r w'] eqn:Hrun. simpl snd.
  revert Hrun.
  unfold create_tables_if_not_exists, create_motion_table_query, create_temperature_table_query.
  all_runs; intros [= <- <-]; py_simpl.
  all: repeat first [ apply extends_refl
                    | eapply extends_trans; [|apply extends_create_table] ].
Qed.

Lemma create_tables_result (E : Env) (w : World) :
  fst (create_tables_if_not_exists E w) = Ret tt \/
  fst (create_tables_if_not_exists E w) = Raise KeyboardInterrupt.
Proof.
  pose proof (tame_create_tables E w) as H.
  destruct (fst (create_tables_if_not_exists E w)) as [[]|[]|]; simpl in H;
    try contradiction; auto.
  destruct H as [H _]. discriminate.
Qed.

Lemma create_table_swap_twice (s : store) :
  create_table "temperature" "temperature"
    (create_table "motion" "motion_detected"
       (create_table "temperature" "temperature"
          (create_table "motion" "motion_detected" s))) =
  create_table "temperature" "temperature" (create_table "motion" "motion_detected" s).
Proof.
  set (s1 := create_table "motion" "motion_detected" s).
  set (s2 := create_table "temperature" "temperature" s1).
  assert (Hm : create_table "motion" "motion_detected" s2 = s2).
  { rewrite create_table_eq.
    destruct (lookup "motion" s1) as [t|] eqn:H1.
    - unfold s2. now rewrite (create_table_keeps _ _ _ t s1 H1).
    - now apply create_table_present in H1. }
  rewrite Hm. apply create_table_twice.
Qed.

(** C5.  Run twice in a row while neither the connection nor a signal
    disturbs its six calls, the creation of the tables succeeds both
    times, the second run prints [Tables are ready] and leaves the store
    exactly as the first run left it, with both tables present.  And
    under any conditions at all, one run or two only extend the store:
    every table keeps its rows and no table name appears twice if none
    did before. *)
Theorem ensure_schema_idempotent (E : Env) (w : World) :
  (calm_window E (List.length (trace w)) 6 ->
   fst (create_tables_if_not_exists E w) = Ret tt /\
   fst ((create_tables_if_not_exists E ;; create_tables_if_not_exists E)%py w) = Ret tt /\
   db (snd ((create_tables_if_not_exists E ;; create_tables_if_not_exists E)%py w)) =
     db (snd (create_tables_if_not_exists E w)) /\
   lines_between (snd (create_tables_if_not_exists E w))
     (snd ((create_tables_if_not_exists E ;; create_tables_if_not_exists E)%py w)) =
     [L_tables_ready] /\
   forallb passed
     (events_between w
        (snd ((create_tables_if_not_exists E ;; create_tables_if_not_exists E)%py w))) = true /\
   lookup "motion" (db (snd (create_tables_if_not_exists E w))) <> None /\
   lookup "temperature" (db (snd (create_tables_if_not_exists E w))) <> None)
  /\
  extends (db w) (db (snd (create_tables_if_not_exists E w)))
  /\
  extends (db w)
    (db (snd ((create_tables_if_not_exists E ;; create_tables_if_not_exists E)%py w)))
  /\
  (fst (create_tables_if_not_exists E w) = Ret tt \/
   fst (create_tables_if_not_exists E w) = Raise KeyboardInterrupt).
Proof.
  split; [|split; [|split]].
  - intros Hc. unfold bind.
    rewrite create_tables_calm
      by (apply (calm_window_part E (List.length (trace w)) 6); [exact Hc | lia | lia]).
    rewrite create_tables_calm
      by (py_simpl; apply (calm_window_part E (List.length (trace w)) 6); [exact Hc | lia | lia]).
    py_simpl. rewrite create_table_swap_twice.
    split; [reflexivity|]. split; [reflexivity|]. split; [reflexivity|].
    split; [settle_new; reflexivity|]. split; [settle_new; reflexivity|].
    split.
    + destruct (lookup "motion" (create_table "motion" "motion_detected" (db w))) as [t|] eqn:H.
      * now rewrite (create_table_keeps _ _ _ t _ H).
      * now apply create_table_present in H.
    + apply create_table_present.
  - apply create_tables_extends.
  - unfold bind.
    pose proof (create_tables_extends E w) as H1.
    destruct (create_tables_if_not_exists E w) as [[[]|x|] w1]; simpl in *; try exact H1.
    eapply extends_trans; [exact H1 | apply create_tables_extends].
  - apply create_tables_result.
Qed.

Lemma ensure_schema_idempotent_witness :
  db (snd ((create_tables_if_not_exists calm ;; create_tables_if_not_exists calm)%py
             (boot seeded))) =
  db (snd (create_tables_if_not_exists calm (boot seeded))).
Proof.
  destruct (ensure_schema_idempotent calm (boot seeded)) as (H & _).
  apply H. intros i Hi. split; reflexivity.
Defined.

(** ** Startup, beyond the three fatal errors *)

(** Settles the next call of a symbolic run from the facts at hand. *)
Ltac settle_call :=
  first [ rewrite respond_create by assumption
        | rewrite respond_calm by assumption
        | rewrite (proj2 (respond_Interrupted _ _ _ _)) by assumption ];
  py_simpl.

(** X1.  When [W1ThermSensor()], [GPIO.setmode] or [GPIO.setup] raises
    (lines 130 to 135), nothing catches it: the process ends on that
    exception with status 1.  The connection opened before is still open,
    neither [conn.close()] nor [GPIO.cleanup()] is called, and the store
    has not been touched. *)
Theorem startup_hardware_failure
    (E : Env) (vars : environ) (fuel : nat) (s : store) (j : nat) (m : string) :
  valid_vars vars ->
  (1 <= j <= 3)%nat ->
  (forall i, (i <= j)%nat -> env_signal E i = false) ->
  (forall i, (i < j)%nat -> env_error E i = None) ->
  env_error E j = Some m ->
  fst (script E vars fuel (boot s)) = Raise (LibError m) /\
  exit_status (fst (script E vars fuel (boot s))) = Some 1 /\
  conn_live (snd (script E vars fuel (boot s))) = true /\
  count is_release (trace (snd (script E vars fuel (boot s)))) = 0%nat /\
  stdout (snd (script E vars fuel (boot s))) = [L_connected] /\
  db (snd (script E vars fuel (boot s))) = s.
Proof.
  intros Hv Hj Hs He Hm.
  pose proof (Hs 0%nat ltac:(lia)) as S0. pose proof (He 0%nat ltac:(lia)) as E0.
  unfold script. rewrite (valid_vars_pass vars Hv).
  py_unfold. py_simpl. settle_call.
  destruct j as [|[|[|[|j]]]]; try lia.
  - rewrite (respond_failing E _ _ _ m) by auto. py_simpl. now repeat split.
  - pose proof (Hs 1%nat ltac:(lia)) as S1. pose proof (He 1%nat ltac:(lia)) as E1.
    settle_call.
    rewrite (respond_failing E _ _ _ m) by auto. py_simpl. now repeat split.
  - pose proof (Hs 1%nat ltac:(lia)) as S1. pose proof (He 1%nat ltac:(lia)) as E1.
    pose proof (Hs 2%nat ltac:(lia)) as S2. pose proof (He 2%nat ltac:(lia)) as E2.
    settle_call. settle_call.
    rewrite (respond_failing E _ _ _ m) by auto. py_simpl. now repeat split.
Qed.

Lemma startup_hardware_failure_witness :
  fst (script no_sensor good_vars 3 (boot seeded)) = Raise (LibError "no sensor found") /\
  conn_live (snd (script no_sensor good_vars 3 (boot seeded))) = true.
Proof.
  destruct (startup_hardware_failure no_sensor good_vars 3 seeded 1 "no sensor found")
    as (Hr & _ & Hl & _).
  - repeat split.
  - lia.
  - intros i Hi. reflexivity.
  - intros i Hi. assert (i = 0%nat) by lia. now subst.
  - reflexivity.
  - now split.
Defined.

(** X2.  A SIGINT that arrives during one of the seven calls of an
    otherwise undisturbed startup (lines 54 to 138) is outside the outer
    [try]: [KeyboardInterrupt] leaves the script, [Quit] is not printed
    and neither [GPIO.cleanup()] nor [conn.close()] is called.  Unless it
    was the connect call itself that was interrupted, the connection is
    left open. *)
Theorem startup_interrupt_unhandled
    (E : Env) (vars : environ) (fuel : nat) (s : store) (k : nat) :
  valid_vars vars ->
  (k < 7)%nat ->
  calm_window E 0 k ->
  env_signal E k = true ->
  fst (script E vars fuel (boot s)) = Raise KeyboardInterrupt /\
  count is_release (trace (snd (script E vars fuel (boot s)))) = 0%nat /\
  List.length (trace (snd (script E vars fuel (boot s)))) = S k /\
  (In L_quit (stdout (snd (script E vars fuel (boot s)))) -> False) /\
  conn_live (snd (script E vars fuel (boot s))) = negb (Nat.eqb k 0).
Proof.
  intros Hv Hk Hc Hsig.
  assert (Hcalm : forall i, (i < k)%nat -> env_signal E i = false /\ env_error E i = None).
  { intros i Hi. destruct (Hc i Hi) as [A B]. now rewrite Nat.add_0_r in A, B. }
  unfold script, create_tables_if_not_exists,
    create_motion_table_query, create_temperature_table_query.
  rewrite (valid_vars_pass vars Hv).
  py_unfold. py_simpl.
  destruct k as [|k]; [settle_call; repeat split; cbn [In]; intuition discriminate|].
  destruct (Hcalm 0%nat ltac:(lia)) as [S0 E0]. settle_call.
  destruct k as [|k]; [settle_call; repeat split; cbn [In]; intuition discriminate|].
  destruct (Hcalm 1%nat ltac:(lia)) as [S1 E1]. settle_call.
  destruct k as [|k]; [settle_call; repeat split; cbn [In]; intuition discriminate|].
  destruct (Hcalm 2%nat ltac:(lia)) as [S2 E2]. settle_call.
  destruct k as [|k]; [settle_call; repeat split; cbn [In]; intuition discriminate|].
  destruct (Hcalm 3%nat ltac:(lia)) as [S3 E3]. settle_call.
  destruct k as [|k]; [settle_call; repeat split; cbn [In]; intuition discriminate|].
  destruct (Hcalm 4%nat ltac:(lia)) as [S4 E4]. settle_call.
  destruct k as [|k]; [settle_call; repeat split; cbn [In]; intuition discriminate|].
  destruct (Hcalm 5%nat ltac:(lia)) as [S5 E5]. settle_call.
  destruct k as [|k]; [settle_call; repeat split; cbn [In]; intuition discriminate|].
  lia.
Qed.

Lemma startup_interrupt_unhandled_witness :
  fst (script early_ctrl_c good_vars 3 (boot seeded)) = Raise KeyboardInterrupt /\
  conn_live (snd (script early_ctrl_c good_vars 3 (boot seeded))) = true.
Proof.
  destruct (startup_interrupt_unhandled early_ctrl_c good_vars 3 seeded 2)
    as (Hr & _ & _ & _ & Hl).
  - repeat split.
  - lia.
  - intros i Hi. do 2 (destruct i as [|i]; [split; reflexivity|]). lia.
  - reflexivity.
  - now split.
Defined.

(** ** What the loop does to the store and to its resources *)

Lemma only_appends_refl (s : store) : only_appends s s.
Proof.
  repeat split; auto. intros name. exists []. now rewrite app_nil_r.
Qed.

Lemma only_appends_trans (s1 s2 s3 : store) :
  only_appends s1 s2 -> only_appends s2 s3 -> only_appends s1 s3.
Proof.
  intros (N1 & R1 & O1) (N2 & R2 & O2). repeat split.
  - congruence.
  - intros name. destruct (R1 name) as [x1 H1]. destruct (R2 name) as [x2 H2].
    exists (x1 ++ x2). rewrite H2, H1. now rewrite app_assoc.
  - intros other Ht Hm. rewrite O2 by assumption. now apply O1.
Qed.

Lemma only_appends_insert (name column ts : string) (v : value) (s : store) :
  name = "temperature" \/ name = "motion" ->
  only_appends s (apply_stmt (InsertInto name column ts v) s).
Proof.
  intros Hname. unfold apply_stmt.
  destruct (run_stmt (InsertInto name column ts v) s) as [m|s'] eqn:H;
    [apply only_appends_refl|].
  apply run_insert in H. destruct H as (Hrows & Hother & Hnames).
  repeat split.
  - exact Hnames.
  - intros name0. destruct (String.eqb_spec name0 name) as [->|Hne].
    + eexists. exact Hrows.
    + exists []. rewrite app_nil_r. apply rows_of_other. now apply Hother.
  - intros other Ht Hm. apply Hother. destruct Hname; congruence.
Qed.

Lemma loop_body_only_appends (E : Env) (w : World) :
  only_appends (db w) (db (snd (loop_body E w))).
Proof.
  destruct (loop_body E w) as [r w'] eqn:Hrun. simpl snd.
  revert Hrun. unfold loop_body, sample_and_store, insert_temperature, insert_motion.
  all_runs; intros [= <- <-]; py_simpl.
  all: repeat first [ apply only_appends_refl
                    | eapply only_appends_trans; [|apply only_appends_insert; auto] ].
Qed.

(** X3.  The sampling loop is append-only.  After any number of
    iterations, whatever failed on the way, every table holds the rows it
    held before, in the same order, followed by the rows added since; no
    table has been created or dropped; and tables other than
    [temperature] and [motion] are exactly as they were. *)
Theorem loop_only_appends (E : Env) (n : nat) (w : World) :
  only_appends (db w) (db (snd (while_true n (loop_body E) w))).
Proof.
  revert w. induction n as [|n IH]; intros w; [apply only_appends_refl|].
  rewrite while_true_S.
  pose proof (loop_body_only_appends E w) as Hb.
  destruct (loop_body E w) as [[[]|x|] w1]; simpl in *; try exact Hb.
  eapply only_appends_trans; [exact Hb | apply IH].
Qed.

Lemma respond_insert_missing
    (E : Env) (k : nat) (name column ts : string) (v : value) (w : World) :
  lookup name (db w) = None ->
  respond E k (CExecute (InsertInto name column ts v)) w = Passed -> False.
Proof.
  intros Hl R. apply respond_execute_Passed in R.
  unfold run_stmt in R. rewrite Hl in R. discriminate.
Qed.

Ltac missing_table Ht Hm :=
  exfalso;
  match goal with
  | R : respond _ _ (CExecute (InsertInto "temperature" _ _ _)) _ = Passed |- _ =>
      exact (respond_insert_missing _ _ _ _ _ _ _ Ht R)
  | R : respond _ _ (CExecute (InsertInto "motion" _ _ _)) _ = Passed |- _ =>
      exact (respond_insert_missing _ _ _ _ _ _ _ Hm R)
  end.

Lemma loop_body_without_tables (E : Env) (w : World) :
  lookup "temperature" (db w) = None -> lookup "motion" (db w) = None ->
  db (snd (loop_body E w)) = db w.
Proof.
  intros Ht Hm.
  destruct (loop_body E w) as [r w'] eqn:Hrun. simpl snd.
  revert Hrun. unfold loop_body, sample_and_store, insert_temperature, insert_motion.
  all_runs; intros [= <- <-]; py_simpl; first [reflexivity | missing_table Ht Hm].
Qed.

Lemma sample_without_tables (E : Env) (w : World) :
  lookup "temperature" (db w) = None -> lookup "motion" (db w) = None ->
  fst (sample_and_store E w) = Ret tt ->
  In (mkEvent CNow Passed) (events_between w (snd (sample_and_store E w))) ->
  exists m1 m2,
    In (L_temperature_error m1) (lines_between w (snd (sample_and_store E w))) /\
    In (L_motion_error m2) (lines_between w (snd (sample_and_store E w))).
Proof.
  intros Ht Hm.
  destruct (sample_and_store E w) as [r w'] eqn:Hrun. simpl fst. simpl snd.
  revert Hrun. unfold sample_and_store, insert_temperature, insert_motion.
  all_runs; intros [= <- <-]; settle_new; intros Hr Hin;
    try discriminate; cases_in Hin; try missing_table Ht Hm.
  all: do 2 eexists; split; find_in.
Qed.

(** X4.  Nothing in the loop creates a table.  If [temperature] and
    [motion] are both missing when the loop starts (the creation at
    startup failed and was only printed), they are still missing after
    any number of iterations and the store is exactly what it was; every
    tick that gets as far as its two inserts and returns prints the error
    of both. *)
Theorem missing_tables_stay_missing (E : Env) (w : World) :
  lookup "temperature" (db w) = None -> lookup "motion" (db w) = None ->
  (forall n, db (snd (while_true n (loop_body E) w)) = db w) /\
  (fst (sample_and_store E w) = Ret tt ->
   In (mkEvent CNow Passed) (events_between w (snd (sample_and_store E w))) ->
   exists m1 m2,
     In (L_temperature_error m1) (lines_between w (snd (sample_and_store E w))) /\
     In (L_motion_error m2) (lines_between w (snd (sample_and_store E w)))).
Proof.
  intros Ht Hm. split; [|now apply sample_without_tables].
  intros n. revert w Ht Hm. induction n as [|n IH]; intros w Ht Hm; [reflexivity|].
  rewrite while_true_S.
  pose proof (loop_body_without_tables E w Ht Hm) as Hb.
  destruct (loop_body E w) as [[[]|x|] w1]; simpl in *; try exact Hb.
  rewrite IH by (rewrite Hb; assumption). exact Hb.
Qed.

Lemma missing_tables_stay_missing_witness :
  db (snd (while_true 4 (loop_body calm) (boot []))) = [] /\
  exists m1 m2,
    In (L_temperature_error m1)
       (lines_between (boot []) (snd (sample_and_store calm (boot [])))) /\
    In (L_motion_error m2)
       (lines_between (boot []) (snd (sample_and_store calm (boot [])))).
Proof.
  destruct (missing_tables_stay_missing calm (boot []) eq_refl eq_refl) as (Hdb & Hout).
  split; [apply Hdb|]. apply Hout.
  - reflexivity.
  - vm_compute. do 2 right. left. reflexivity.
Defined.

Lemma count_none {A} (p : A -> bool) (l : list A) :
  forallb (fun x => negb (p x)) l = true -> count p l = 0%nat.
Proof.
  unfold count. induction l as [|x l IH]; simpl; [reflexivity|].
  intros H. apply andb_prop in H. destruct H as [Hx Hl].
  destruct (p x); [discriminate | now apply IH].
Qed.

Ltac give_prefix :=
  match goal with
  | |- exists evs, ?l = evs ++ ?b /\ _ => let p := prefix_of l b in exists p
  end; split; reflexivity.

Lemma loop_body_keeps_resources (E : Env) (w : World) :
  conn_live (snd (loop_body E w)) = conn_live w /\
  exists evs, trace (snd (loop_body E w)) = evs ++ trace w /\
              forallb (fun e => negb (is_lifecycle_call e)) evs = true.
Proof.
  destruct (loop_body E w) as [r w'] eqn:Hrun. simpl snd.
  revert Hrun. unfold loop_body, sample_and_store, insert_temperature, insert_motion.
  all_runs; intros [= <- <-]; py_simpl; (split; [reflexivity | give_prefix]).
Qed.

Lemma while_true_keeps_resources (E : Env) (n : nat) (w : World) :
  conn_live (snd (while_true n (loop_body E) w)) = conn_live w /\
  exists evs, trace (snd (while_true n (loop_body E) w)) = evs ++ trace w /\
              forallb (fun e => negb (is_lifecycle_call e)) evs = true.
Proof.
  revert w. induction n as [|n IH]; intros w.
  - simpl. split; [reflexivity|]. now exists [].
  - rewrite while_true_S.
    pose proof (loop_body_keeps_resources E w) as Hb.
    destruct (loop_body E w) as [[[]|x|] w1]; simpl in *; try exact Hb.
    destruct Hb as (Hl & evs & Ht & Hf).
    destruct (IH w1) as (Hl' & evs' & Ht' & Hf').
    split; [congruence|]. exists (evs' ++ evs). split.
    + rewrite Ht', Ht. apply app_assoc.
    + rewrite forallb_app, Hf', Hf. reflexivity.
Qed.

(** X5.  The loop never touches its resources.  Over any number of
    iterations, whatever fails, it makes no call to
    [sqlitecloud.connect], [conn.close()], [W1ThermSensor()],
    [GPIO.setmode], [GPIO.setup] or [GPIO.cleanup()], and the connection
    is open afterwards exactly if it was open before: a lost connection is
    never replaced and a live one is never closed. *)
Theorem loop_keeps_resources (E : Env) (n : nat) (w : World) :
  count is_lifecycle_call (events_between w (snd (while_true n (loop_body E) w))) = 0%nat /\
  conn_live (snd (while_true n (loop_body E) w)) = conn_live w.
Proof.
  destruct (while_true_keeps_resources E n w) as (Hl & evs & Ht & Hf).
  split; [|exact Hl].
  unfold events_between. rewrite Ht, new_part_app. now apply count_none.
Qed.

(** ** Leaving the script *)

Lemma main_try_cases (E : Env) (fuel : nat) (w : World) :
  (fst (main_try E fuel w) = Running \/
   (fst (main_try E fuel w) = Raise KeyboardInterrupt /\
    exists c evs, trace (snd (main_try E fuel w)) = mkEvent c Interrupted :: evs ++ trace w)) /\
  conn_live (snd (main_try E fuel w)) = conn_live w.
Proof.
  unfold main_try. py_unfold. py_simpl. fork.
  - match goal with
    | |- context [while_true fuel (loop_body E) ?w0] =>
        destruct (while_true_cases E fuel w0) as [(Hr & _) | (Hr & c & evs & Ht & _)];
          destruct (while_true_keeps_resources E fuel w0) as (Hl & _);
          destruct (while_true fuel (loop_body E) w0) as [r w1]
    end; simpl in *; subst r; (split; [|exact Hl]).
    + now left.
    + right. split; [reflexivity|].
      exists c, (evs ++ [mkEvent (CSleep 2) Passed]). rewrite <- app_assoc. exact Ht.
  - split; [|reflexivity]. right. split; [reflexivity|]. now exists (CSleep 2), [].
Qed.

Lemma main_block_returns (E : Env) (fuel : nat) (w : World) :
  fst (main_block E fuel w) = Ret tt ->
  exists c rest lines,
    trace (snd (main_block E fuel w)) =
      mkEvent CClose Passed :: mkEvent CGpioCleanup Passed :: mkEvent c Interrupted :: rest /\
    stdout (snd (main_block E fuel w)) = L_cleaned_up :: L_quit :: lines /\
    conn_live (snd (main_block E fuel w)) = false.
Proof.
  unfold main_block, try_finally, try_except_KeyboardInterrupt.
  destruct (main_try_cases E fuel w) as [[Hr | (Hr & c & evs & Ht)] _];
    destruct (main_try E fuel w) as [r w1]; simpl in Hr; subst r; [discriminate|].
  simpl in Ht. unfold main_finally. py_unfold. py_simpl.
  fork; [|discriminate|discriminate].
  fork; [|discriminate|discriminate].
  intros _. rewrite Ht. now exists c, (evs ++ trace w), (stdout w1).
Qed.

(** X6.  The script comes to its end without an exception (status 0
    by running off the last line) only by way of Ctrl-C: in every run that
    returns, a call was interrupted, [Quit] and the cleanup message are
    the last two lines printed, [GPIO.cleanup()] and [conn.close()] are
    the last two calls, in that order, and the connection is closed. *)
Theorem normal_exit_only_after_interrupt
    (E : Env) (vars : environ) (fuel : nat) (s : store) :
  fst (script E vars fuel (boot s)) = Ret tt ->
  exists c rest lines,
    trace (snd (script E vars fuel (boot s))) =
      mkEvent CClose Passed :: mkEvent CGpioCleanup Passed :: mkEvent c Interrupted :: rest /\
    stdout (snd (script E vars fuel (boot s))) = L_cleaned_up :: L_quit :: lines /\
    conn_live (snd (script E vars fuel (boot s))) = false.
Proof.
  unfold script, create_tables_if_not_exists.
  destruct (negb (truthy (getenv "API_KEY" vars)) || negb (truthy (getenv "DATABASE_URL" vars))
            || negb (truthy (getenv "DB_NAME" vars))); [discriminate|].
  py_unfold. py_simpl.
  repeat fork; try discriminate; apply main_block_returns.
Qed.

Lemma normal_exit_only_after_interrupt_witness :
  exists c rest lines,
    trace (snd (script ctrl_c good_vars 5 (boot []))) =
      mkEvent CClose Passed :: mkEvent CGpioCleanup Passed :: mkEvent c Interrupted :: rest /\
    stdout (snd (script ctrl_c good_vars 5 (boot []))) = L_cleaned_up :: L_quit :: lines /\
    conn_live (snd (script ctrl_c good_vars 5 (boot []))) = false.
Proof.
  apply (normal_exit_only_after_interrupt ctrl_c good_vars 5 []). reflexivity.
Defined.

(** X7.  The [finally] block does not protect its own steps.  When
    Ctrl-C stops an undisturbed run and [GPIO.cleanup()] then raises,
    [conn.close()] is never reached: the failed cleanup is the last call
    of the run, [Quit] is the last line printed, the connection stays
    open, and the process ends on that exception with status 1. *)
Theorem failed_cleanup_skips_close
    (E : Env) (vars : environ) (s : store) (k fuel : nat) (m : string) :
  valid_vars vars ->
  calm_window E 0 7 ->
  env_signal E k = true -> quiet E 0 k ->
  env_signal E (S k) = false -> env_error E (S k) = Some m ->
  (k <= fuel + 7)%nat ->
  fst (script E vars fuel (boot s)) = Raise (LibError m) /\
  exit_status (fst (script E vars fuel (boot s))) = Some 1 /\
  hd_error (trace (snd (script E vars fuel (boot s)))) =
    Some (mkEvent CGpioCleanup (Failed m)) /\
  hd_error (stdout (snd (script E vars fuel (boot s)))) = Some L_quit /\
  conn_live (snd (script E vars fuel (boot s))) = true.
Proof.
  intros Hv Hstart Hk Hfirst Hs He Hfuel.
  assert (Hk7 : (7 <= k)%nat).
  { destruct (Nat.lt_ge_cases k 7) as [Hlt|]; [|assumption].
    destruct (Hstart k Hlt) as [Hsig _]. rewrite Nat.add_0_r in Hsig. congruence. }
  rewrite script_startup; [|exact Hv | apply (calm_window_part E 0 7); [exact Hstart | lia | lia]].
  unfold bind.
  rewrite create_tables_calm
    by (apply (calm_window_part E 0 7); [exact Hstart | simpl; lia | simpl; lia]).
  unfold main_block, try_finally, try_except_KeyboardInterrupt.
  match goal with
  | |- context [main_try E fuel ?w0] =>
      destruct (main_try_interrupted E fuel k w0 Hk Hfirst) as (c & evs & Hrun & Ht & Hlen);
        [simpl; lia|];
        destruct (main_try_cases E fuel w0) as [_ Hlive];
        rewrite Hrun;
        set (w1 := snd (main_try E fuel w0)) in *
  end.
  assert (Hlen1 : List.length (trace w1) = S k).
  { rewrite Ht. change (List.length (mkEvent c Interrupted :: ?l)) with (S (List.length l)).
    f_equal. exact Hlen. }
  unfold main_finally. py_unfold. py_simpl. rewrite Hlen1.
  rewrite (respond_failing E _ _ _ m) by auto. py_simpl.
  repeat split. exact Hlive.
Qed.

Lemma failed_cleanup_skips_close_witness :
  fst (script stuck_cleanup good_vars 5 (boot [])) = Raise (LibError "cleanup failed") /\
  conn_live (snd (script stuck_cleanup good_vars 5 (boot []))) = true.
Proof.
  destruct (failed_cleanup_skips_close stuck_cleanup good_vars [] 9 5 "cleanup failed")
    as (Hr & _ & _ & _ & Hl).
  - repeat split.
  - intros i Hi. do 7 (destruct i as [|i]; [split; reflexivity|]). lia.
  - reflexivity.
  - intros i Hi. do 9 (destruct i as [|i]; [reflexivity|]). lia.
  - reflexivity.
  - reflexivity.
  - lia.
  - now split.
Defined.

(** ** More on one tick *)

Ltac fork_pin_eq :=
  match goal with
  | |- context [Z.eqb ?m 0] => let P := fresh "P" in destruct (Z.eqb m 0) eqn:P
  end.

Ltac all_runs_eq := py_unfold; py_simpl; repeat first [fork | fork_pin_eq].

(** X8.  The motion line of a tick depends on the pin alone.  [Motion
    detected!] is printed only for a non-zero reading of [GPIO.input] and
    [No motion] only for zero; and a tick that read the clock and returned
    prints one of them, also when one or both of its inserts failed. *)
Theorem motion_line_follows_pin (E : Env) (w : World) :
  (In L_motion_detected (lines_between w (snd (sample_and_store E w))) ->
   env_pin E (S (List.length (trace w))) <> 0) /\
  (In L_no_motion (lines_between w (snd (sample_and_store E w))) ->
   env_pin E (S (List.length (trace w))) = 0) /\
  (fst (sample_and_store E w) = Ret tt ->
   In (mkEvent CNow Passed) (events_between w (snd (sample_and_store E w))) ->
   In L_motion_detected (lines_between w (snd (sample_and_store E w))) \/
   In L_no_motion (lines_between w (snd (sample_and_store E w)))).
Proof.
  destruct (sample_and_store E w) as [r w'] eqn:Hrun. simpl fst. simpl snd.
  revert Hrun. unfold sample_and_store, insert_temperature, insert_motion.
  all_runs_eq; intros [= <- <-]; settle_new.
  all: split; [intros Hin; cases_in Hin; now apply Z.eqb_neq|].
  all: split; [intros Hin; cases_in Hin; now apply Z.eqb_eq|].
  all: intros Hr Hin; try discriminate; cases_in Hin.
  all: first [left; find_in | right; find_in].
Qed.

Lemma motion_line_follows_pin_witness :
  In L_motion_detected
     (lines_between (boot seeded) (snd (sample_and_store dropped (boot seeded)))) \/
  In L_no_motion
     (lines_between (boot seeded) (snd (sample_and_store dropped (boot seeded)))).
Proof.
  destruct (motion_line_follows_pin dropped (boot seeded)) as (_ & _ & H).
  apply H; [reflexivity|]. vm_compute. do 3 right. left. reflexivity.
Defined.

(** X9.  An insert that returns reports exactly once.  It prints its
    [Record inserted] line when [execute] and [commit] both passed, and
    then its table has gained the row; otherwise it prints its error line
    with the message of the call that failed, and nothing else. *)
Theorem insert_reports_once (E : Env) (w : World) :
  (forall t ts,
      fst (insert_temperature E t ts w) = Ret tt ->
      (lines_between w (snd (insert_temperature E t ts w)) = [L_temperature_inserted ts t] /\
       events_between w (snd (insert_temperature E t ts w)) =
         [mkEvent CCommit Passed;
          mkEvent (CExecute (InsertInto "temperature" "temperature" ts (VReal t))) Passed] /\
       rows_of "temperature" (db (snd (insert_temperature E t ts w))) =
         rows_of "temperature" (db w)
           ++ [mkRow (next_id (rows_of "temperature" (db w))) ts (VReal t)])
      \/
      (exists m c rest,
          lines_between w (snd (insert_temperature E t ts w)) = [L_temperature_error m] /\
          events_between w (snd (insert_temperature E t ts w)) = mkEvent c (Failed m) :: rest))
  /\
  (forall mo ts,
      fst (insert_motion E mo ts w) = Ret tt ->
      (lines_between w (snd (insert_motion E mo ts w)) = [L_motion_inserted ts mo] /\
       events_between w (snd (insert_motion E mo ts w)) =
         [mkEvent CCommit Passed;
          mkEvent (CExecute (InsertInto "motion" "motion_detected" ts (VInt mo))) Passed] /\
       rows_of "motion" (db (snd (insert_motion E mo ts w))) =
         rows_of "motion" (db w)
           ++ [mkRow (next_id (rows_of "motion" (db w))) ts (VInt mo)])
      \/
      (exists m c rest,
          lines_between w (snd (insert_motion E mo ts w)) = [L_motion_error m] /\
          events_between w (snd (insert_motion E mo ts w)) = mkEvent c (Failed m) :: rest)).
Proof.
  split.
  - intros t ts.
    destruct (insert_temperature E t ts w) as [r w'] eqn:Hrun. simpl fst. simpl snd.
    revert Hrun. unfold insert_temperature.
    all_runs; intros [= <- <-]; settle_new; intros Hr; try discriminate.
    + left. split; [reflexivity|]. split; [reflexivity|].
      match goal with
      | R : respond _ _ (CExecute _) _ = Passed |- _ =>
          apply respond_execute_Passed in R; apply run_insert in R; apply R
      end.
    + right. do 3 eexists. split; reflexivity.
    + right. do 3 eexists. split; reflexivity.
  - intros mo ts.
    destruct (insert_motion E mo ts w) as [r w'] eqn:Hrun. simpl fst. simpl snd.
    revert Hrun. unfold insert_motion.
    all_runs; intros [= <- <-]; settle_new; intros Hr; try discriminate.
    + left. split; [reflexivity|]. split; [reflexivity|].
      match goal with
      | R : respond _ _ (CExecute _) _ = Passed |- _ =>
          apply respond_execute_Passed in R; apply run_insert in R; apply R
      end.
    + right. do 3 eexists. split; reflexivity.
    + right. do 3 eexists. split; reflexivity.
Qed.

Lemma insert_reports_once_witness :
  lines_between (boot seeded)
    (snd (insert_motion calm 1 "2024-01-01T00:00:00" (boot seeded))) =
    [L_motion_inserted "2024-01-01T00:00:00" 1] /\
  exists m c rest,
    lines_between (boot [])
      (snd (insert_motion calm 1 "2024-01-01T00:00:00" (boot []))) = [L_motion_error m] /\
    events_between (boot [])
      (snd (insert_motion calm 1 "2024-01-01T00:00:00" (boot []))) =
      mkEvent c (Failed m) :: rest.
Proof.
  split.
  - destruct (insert_reports_once calm (boot seeded)) as (_ & H).
    destruct (H 1 "2024-01-01T00:00:00" eq_refl) as [(Hl & _) | (m & c & rest & Hl & _)].
    + exact Hl.
    + vm_compute in Hl. discriminate.
  - destruct (insert_reports_once calm (boot [])) as (_ & H).
    destruct (H 1 "2024-01-01T00:00:00" eq_refl) as [(Hl & _) | Herr].
    + vm_compute in Hl. discriminate.
    + exact Herr.
Defined.

(** X10.  The pairing of a tick's rows can break in the other direction
    too.  When the temperature insert of a tick succeeded and its motion
    statement then failed, [temperature] has the row of this tick and
    [motion] has not: nothing undoes the first insert. *)
Theorem temperature_row_without_motion
    (E : Env) (w : World) (m : string) (t : Q) (ts : string) (mo : Z) :
  In (mkEvent (CExecute (InsertInto "motion" "motion_detected" ts (VInt mo))) (Failed m))
     (events_between w (snd (sample_and_store E w))) ->
  In (L_temperature_inserted ts t) (lines_between w (snd (sample_and_store E w))) ->
  rows_of "temperature" (db (snd (sample_and_store E w))) =
    rows_of "temperature" (db w)
      ++ [mkRow (next_id (rows_of "temperature" (db w))) ts (VReal t)] /\
  rows_of "motion" (db (snd (sample_and_store E w))) = rows_of "motion" (db w) /\
  In (L_motion_error m) (lines_between w (snd (sample_and_store E w))).
Proof.
  destruct (sample_and_store E w) as [r w'] eqn:Hrun. simpl snd.
  revert Hrun. unfold sample_and_store, insert_temperature, insert_motion.
  all_runs; intros [= <- <-]; settle_new; intros Hin Hout; cases_in Hin; cases_in Hout.
  all: repeat match goal with
              | H : mkEvent _ _ = mkEvent _ _ |- _ => injection H as <- <- <-
              | H : L_temperature_inserted _ _ = L_temperature_inserted _ _ |- _ =>
                  injection H as <-
              end.
  all: match goal with
       | H : respond _ _ (CExecute (InsertInto "temperature" _ _ _)) _ = Passed |- _ =>
           apply respond_execute_Passed in H; py_simpl in H;
           apply run_insert in H; destruct H as (Hrows & Hother & _)
       end.
  all: split; [exact Hrows | split; [apply rows_of_other, Hother; discriminate | find_in]].
Qed.

Lemma temperature_row_without_motion_witness :
  rows_of "temperature" (db (snd (sample_and_store motion_lost (boot seeded)))) =
    rows_of "temperature" seeded ++ [mkRow 2 "2024-01-01T00:00:00" (VReal (43 # 2))] /\
  rows_of "motion" (db (snd (sample_and_store motion_lost (boot seeded)))) =
    rows_of "motion" seeded.
Proof.
  destruct (temperature_row_without_motion motion_lost (boot seeded) "connection lost"
              (43 # 2) "2024-01-01T00:00:00" 0) as (Ht & Hm & _).
  - vm_compute. left. reflexivity.
  - vm_compute. do 2 right. left. reflexivity.
  - split; [exact Ht | exact Hm].
Defined.

(** X11.  A tick writes what it read.  Every [INSERT] a tick sends,
    whether it then passes or fails, carries the timestamp of the tick's
    one clock read; the one into [temperature] carries the value just
    returned by [sensor.get_temperature()] and the one into [motion] the
    value just returned by [GPIO.input]. *)
Theorem tick_writes_what_it_read
    (E : Env) (w : World) (name column ts : string) (v : value) (o : outcome) :
  In (mkEvent (CExecute (InsertInto name column ts v)) o)
     (events_between w (snd (sample_and_store E w))) ->
  ts = env_now E (2 + List.length (trace w)) /\
  ((name = "temperature" /\ column = "temperature" /\
    v = VReal (env_temperature E (List.length (trace w))))
   \/
   (name = "motion" /\ column = "motion_detected" /\
    v = VInt (env_pin E (1 + List.length (trace w))))).
Proof.
  destruct (sample_and_store E w) as [r w'] eqn:Hrun. simpl snd.
  revert Hrun. unfold sample_and_store, insert_temperature, insert_motion.
  all_runs; intros [= <- <-]; settle_new; intros Hin; cases_in Hin.
  all: match goal with
       | H : mkEvent _ _ = mkEvent _ _ |- _ => injection H as <- <- <- <- <-
       end.
  all: split; [reflexivity|]; first [left; now repeat split | right; now repeat split].
Qed.

Lemma tick_writes_what_it_read_witness :
  "2024-01-01T00:00:00" = env_now dropped (2 + List.length (trace (boot seeded))) /\
  (("temperature" = "temperature" /\ "temperature" = "temperature" /\
    VReal (43 # 2) = VReal (env_temperature dropped (List.length (trace (boot seeded)))))
   \/
   ("temperature" = "motion" /\ "temperature" = "motion_detected" /\
    VReal (43 # 2) = VInt (env_pin dropped (1 + List.length (trace (boot seeded)))))).
Proof.
  apply (tick_writes_what_it_read dropped (boot seeded) "temperature" "temperature"
           "2024-01-01T00:00:00" (VReal (43 # 2)) (Failed "connection lost")).
  vm_compute. do 2 right. left. reflexivity.
Defined.
